(** * Chat client: a shallow embedding of the two versions of [App.jsx]

    The repository holds two versions of the React component [App]:
    - the _simple_ variant ([src/App.jsx]): name-based, no validation at
      submit, message id [Date.now()];
    - the _identity-aware_ variant: a hub-assigned [userId], the [yup]
      schema enforced at submit, an [isSubmitting] guard, the
      [UserNameUpdated] event, message id [Date.now() + Math.random()].

    React state is a record; every handler, effect body and continuation of
    an [async] function is a pure function on that record which also
    returns the hub calls it issues.  One [step] is one task of the
    single-threaded event loop: a UI event, a hub event or the settlement of
    a pending hub call, followed by the commit of the next render and the
    effects whose dependencies changed.  In [step] and [run] a handler
    therefore belongs to the render that shows the state it runs in.  A
    handler left over from an earlier render, which is what a second key
    press meets before React has rendered again, is [sendMessageFrom], and
    [runRendered] is the event loop in which commits are tasks of their
    own. *)

From Stdlib Require Import List String Ascii ZArith Bool Arith Lia.
From Stdlib Require Import SpecFloat DecimalString.
Import ListNotations.
Open Scope string_scope.
Open Scope list_scope.
Open Scope nat_scope.

(** ** JavaScript values used by the component *)

Module JS.

(** Strings are sequences of code units; the embedding covers code units
    0..255, on which [WhiteSpace] and [LineTerminator] are TAB, LF, VT,
    FF, CR, SPACE and NBSP. *)
Definition isWhiteSpace (c : ascii) : bool :=
  let n := nat_of_ascii c in
  ((9 <=? n) && (n <=? 13)) || (n =? 32) || (n =? 160).

Fixpoint trimStart (s : string) : string :=
  match s with
  | EmptyString => EmptyString
  | String c s' => if isWhiteSpace c then trimStart s' else s
  end.

Fixpoint trimEnd (s : string) : string :=
  match s with
  | EmptyString => EmptyString
  | String c s' =>
      match trimEnd s' with
      | EmptyString => if isWhiteSpace c then EmptyString else String c EmptyString
      | t => String c t
      end
  end.

(** [s.trim()] *)
Definition trim (s : string) : string := trimEnd (trimStart s).

(** [s.slice(0, n)] for a non-negative [n] *)
Fixpoint slice0 (n : nat) (s : string) : string :=
  match n, s with
  | S n', String c s' => String c (slice0 n' s')
  | _, _ => EmptyString
  end.

(** Truthiness of a string: the empty string is the only falsy one. *)
Definition truthy_string (s : string) : bool :=
  match s with EmptyString => false | String _ _ => true end.

(** The values a user identifier takes: [undefined] (argument or field
    absent), [null] (initial React state) or a number (the database id
    returned by the hub). *)
Inductive Id := Undefined | Null | Num (n : Z).

(** Truthiness: [undefined], [null] and [0] are falsy. *)
Definition truthy (v : Id) : bool :=
  match v with
  | Num n => negb (n =? 0)%Z
  | _ => false
  end.

(** [a === b] *)
Definition strict_eq (a b : Id) : bool :=
  match a, b with
  | Undefined, Undefined => true
  | Null, Null => true
  | Num x, Num y => (x =? y)%Z
  | _, _ => false
  end.

(** IEEE 754 binary64 numbers *)
Definition prec : Z := 53.
Definition emax : Z := 1024.
Definition Number := spec_float.

(** An integer as a Number (rounded to nearest even beyond 2^53). *)
Definition of_Z (z : Z) : Number := binary_normalize prec emax z 0 false.

(** [x + y] on Numbers *)
Definition add (x y : Number) : Number := SFadd prec emax x y.

(** [String(n)] for a natural number *)
Definition of_nat (n : nat) : string := NilEmpty.string_of_uint (Nat.to_uint n).

End JS.

(** ** The part of [yup] the schema uses

    [yup.string()] carries a list of rules in the order in which the chain
    declares them.  [validate] first casts the value (running the
    transforms), then runs the tests on the cast value; with the default
    [abortEarly] the error thrown is that of the first failing test. *)

Module Yup.

Inductive Rule :=
| Trim
| Required (message : string)
| Min (n : nat)
| Max (n : nat).

Definition StringSchema := list Rule.

Definition transform (r : Rule) (value : string) : string :=
  match r with
  | Trim => JS.trim value
  | _ => value
  end.

Definition cast (schema : StringSchema) (value : string) : string :=
  fold_left (fun v r => transform r v) schema value.

Definition test (r : Rule) (value : string) : bool :=
  match r with
  | Trim => String.eqb value (JS.trim value)
  | Required _ => negb (String.length value =? 0)
  | Min n => n <=? String.length value
  | Max n => String.length value <=? n
  end.

(** The message of a failing rule: the one given to [required], the
    default locale's otherwise. *)
Definition message (path : string) (r : Rule) : string :=
  match r with
  | Trim => (path ++ " must be a trimmed string")%string
  | Required m => m
  | Min n => (path ++ " must be at least " ++ JS.of_nat n ++ " characters")%string
  | Max n => (path ++ " must be at most " ++ JS.of_nat n ++ " characters")%string
  end.

Fixpoint firstFailure (path : string) (rules : list Rule) (value : string)
  : option string :=
  match rules with
  | [] => None
  | r :: rest =>
      if test r value then firstFailure path rest value
      else Some (message path r)
  end.

Definition validateString (path : string) (schema : StringSchema) (value : string)
  : option string :=
  firstFailure path schema (cast schema value).

(** [yup.object({...}).validate(obj)]: the fields are visited in the
    order of the schema's node list; the first failing field aborts. *)
Fixpoint validateFields (nodes : list (string * StringSchema * string))
  : option string :=
  match nodes with
  | [] => None
  | (path, schema, value) :: rest =>
      match validateString path schema value with
      | Some m => Some m
      | None => validateFields rest
      end
  end.

End Yup.

(** ** Constants and schema shared by both variants *)

Definition NAME_MAX_LENGTH : nat := 20.
Definition MESSAGE_MAX_LENGTH : nat := 500.
Definition NAME_MIN_LENGTH : nat := 2.
Definition MESSAGE_MIN_LENGTH : nat := 1.

Definition userNameSchema : Yup.StringSchema :=
  [Yup.Trim; Yup.Required "Name required";
   Yup.Min NAME_MIN_LENGTH; Yup.Max NAME_MAX_LENGTH].

Definition messageInputSchema : Yup.StringSchema :=
  [Yup.Trim; Yup.Required "Message required";
   Yup.Min MESSAGE_MIN_LENGTH; Yup.Max MESSAGE_MAX_LENGTH].

(** The order in which [yup] visits the two fields of the object schema is
    fixed by the library's sorting of the field names, not by the
    component: both orders are covered. *)
Inductive NodeOrder := DeclarationOrder | ReverseOrder.

Definition schema_nodes (order : NodeOrder) (userName messageInput : string)
  : list (string * Yup.StringSchema * string) :=
  let declared := [("userName", userNameSchema, userName);
                   ("messageInput", messageInputSchema, messageInput)] in
  match order with
  | DeclarationOrder => declared
  | ReverseOrder => rev declared
  end.

(** [schema.validate({ userName, messageInput })]: [None] when it resolves,
    [Some m] when it rejects with [err.message = m]. *)
Definition schema_validate (order : NodeOrder) (userName messageInput : string)
  : option string :=
  Yup.validateFields (schema_nodes order userName messageInput).


(** ** The identity-aware variant *)

Module IdentityAware.

(** An entry of [messages].  [m_userId] is the field [userId] of the
    message object (the record [State] has a field of that name too). *)
Record Message := mkMessage {
  user : string;
  message : string;
  timestamp : option string;
  m_userId : JS.Id;
  id : JS.Number }.

(** The [useState] cells of [App].  [connection] is [true] once the hub
    connection object has been built (it is [null] before);
    [validationErrors] is [None] for the object [{}] and [Some m] for
    [{ error: m }], the only two shapes the component stores. *)
Record State := mkState {
  connection : bool;
  messages : list Message;
  userName : string;
  messageInput : string;
  connected : bool;
  validationErrors : option string;
  isSubmitting : bool;
  userId : JS.Id }.

Definition initialState : State :=
  mkState false [] "" "" false None false JS.Null.

Definition setConnection (v : bool) (st : State) : State :=
  mkState v (messages st) (userName st) (messageInput st) (connected st)
          (validationErrors st) (isSubmitting st) (userId st).
Definition setMessages (f : list Message -> list Message) (st : State) : State :=
  mkState (connection st) (f (messages st)) (userName st) (messageInput st)
          (connected st) (validationErrors st) (isSubmitting st) (userId st).
Definition setUserName (v : string) (st : State) : State :=
  mkState (connection st) (messages st) v (messageInput st) (connected st)
          (validationErrors st) (isSubmitting st) (userId st).
Definition setMessageInput (v : string) (st : State) : State :=
  mkState (connection st) (messages st) (userName st) v (connected st)
          (validationErrors st) (isSubmitting st) (userId st).
Definition setConnected (v : bool) (st : State) : State :=
  mkState (connection st) (messages st) (userName st) (messageInput st) v
          (validationErrors st) (isSubmitting st) (userId st).
Definition setValidationErrors (v : option string) (st : State) : State :=
  mkState (connection st) (messages st) (userName st) (messageInput st)
          (connected st) v (isSubmitting st) (userId st).
Definition setIsSubmitting (v : bool) (st : State) : State :=
  mkState (connection st) (messages st) (userName st) (messageInput st)
          (connected st) (validationErrors st) v (userId st).
Definition setUserId (v : JS.Id) (st : State) : State :=
  mkState (connection st) (messages st) (userName st) (messageInput st)
          (connected st) (validationErrors st) (isSubmitting st) v.

(** What the component asks of the hub connection. *)
Inductive Call :=
| Start
| JoinChat (name : string)
| UpdateUserName (uid : JS.Id) (newName : string)
| SendMessage (uid : JS.Id) (text : string).

Definition isSendMessage (c : Call) : bool :=
  match c with SendMessage _ _ => true | _ => false end.
Definition isJoinChat (c : Call) : bool :=
  match c with JoinChat _ => true | _ => false end.
Definition isUpdateUserName (c : Call) : bool :=
  match c with UpdateUserName _ _ => true | _ => false end.

(** *** Hub event handlers *)

(** [connection.on('ReceiveMessage', ...)]; [now] is the reading of
    [Date.now()] and [random] the draw of [Math.random()]. *)
Definition onReceiveMessage (user message : string) (timestamp : option string)
    (messageUserId : JS.Id) (now : Z) (random : JS.Number)
    (prev : list Message) : list Message :=
  prev ++ [mkMessage user message timestamp messageUserId
                     (JS.add (JS.of_Z now) random)].

Definition renameMessage (newName : string) (msg : Message) : Message :=
  mkMessage newName (message msg) (timestamp msg) (m_userId msg) (id msg).

(** [connection.on('UserNameUpdated', ...)] *)
Definition onUserNameUpdated (oldName newName : string) (updatedUserId : JS.Id)
    (prev : list Message) : list Message :=
  map (fun msg =>
         if JS.strict_eq (m_userId msg) updatedUserId
         then renameMessage newName msg
         else msg) prev.

(** *** Effects *)

Definition startConnection (st : State) : list Call :=
  if connection st then [Start] else [].

Definition joinChat (st : State) : list Call :=
  if connection st && connected st
     && JS.truthy_string (JS.trim (userName st)) && negb (JS.truthy (userId st))
  then [JoinChat (JS.trim (userName st))]
  else [].

Definition updateName (st : State) : list Call :=
  if connection st && connected st && JS.truthy (userId st)
     && JS.truthy_string (JS.trim (userName st))
  then [UpdateUserName (userId st) (JS.trim (userName st))]
  else [].

Definition updateNameEffect (st : State) : list Call :=
  if JS.truthy (userId st) then updateName st else [].

(** The dependency array [connection, connected, userName, userId] of the
    join effect, which is that of the rename effect up to order. *)
Definition deps_eqb (prev next : State) : bool :=
  Bool.eqb (connection prev) (connection next)
  && Bool.eqb (connected prev) (connected next)
  && String.eqb (userName prev) (userName next)
  && JS.strict_eq (userId prev) (userId next).

(** The effects that run after a render, in declaration order. *)
Definition effects (prev next : State) : list Call :=
  (if Bool.eqb (connection prev) (connection next) then []
   else startConnection next)
  ++ (if deps_eqb prev next then []
      else joinChat next ++ updateNameEffect next).

Section WithNodeOrder.

Variable order : NodeOrder.

(** *** Submission *)

Definition validate (st : State) : State * bool :=
  match schema_validate order (userName st) (messageInput st) with
  | None => (setValidationErrors None st, true)
  | Some m => (setValidationErrors (Some m) st, false)
  end.

(** [sendMessage] up to the [await] of the hub call, for the handler of the
    render that shows [st] when nothing is written between its guard and
    the continuation of [validate]. *)
Definition sendMessage (st : State) : State * list Call :=
  if isSubmitting st || negb (connected st) || negb (JS.truthy (userId st))
  then (st, [])
  else
    let (st', ok) := validate st in
    if negb ok then (st', [])
    else (setIsSubmitting true st',
          [SendMessage (userId st) (JS.trim (messageInput st))]).

(** The rest of the [try] block and [finally], once the call resolved. *)
Definition sendMessage_resolved (st : State) : State :=
  setIsSubmitting false (setMessageInput "" st).

(** [catch] and [finally], once the call rejected. *)
Definition sendMessage_rejected (st : State) : State :=
  setIsSubmitting false (setValidationErrors (Some "Send failed") st).

(** *** The event loop *)

Inductive Event :=
| Mounted
| StartResolved
| StartRejected
| ReceiveMessage (user message : string) (timestamp : option string)
                 (messageUserId : JS.Id) (now : Z) (random : JS.Number)
| UserNameUpdated (oldName newName : string) (updatedUserId : JS.Id)
| Reconnected
| Closed
| JoinResolved (newUserId : JS.Id)
| JoinRejected
| UpdateResolved
| UpdateRejected
| NameChanged (value : string)
| MessageChanged (value : string)
| Submit
| SendResolved
| SendRejected.

Definition handle (st : State) (e : Event) : State * list Call :=
  match e with
  | Mounted => (setConnection true st, [])
  | StartResolved => (setConnected true st, [])
  | StartRejected => (setConnected false st, [])
  | ReceiveMessage u m t uid now random =>
      (setMessages (onReceiveMessage u m t uid now random) st, [])
  | UserNameUpdated o n uid =>
      (setMessages (onUserNameUpdated o n uid) st, [])
  | Reconnected => (setConnected true st, [])
  | Closed => (setConnected false st, [])
  | JoinResolved newUserId => (setUserId newUserId st, [])
  | JoinRejected => (st, [])
  | UpdateResolved => (st, [])
  | UpdateRejected => (st, [])
  | NameChanged v => (setUserName (JS.slice0 NAME_MAX_LENGTH v) st, [])
  | MessageChanged v => (setMessageInput (JS.slice0 MESSAGE_MAX_LENGTH v) st, [])
  | Submit => sendMessage st
  | SendResolved => (sendMessage_resolved st, [])
  | SendRejected => (sendMessage_rejected st, [])
  end.

Definition step (st : State) (e : Event) : State * list Call :=
  let (st', calls) := handle st e in
  (st', calls ++ effects st st').

Fixpoint run (st : State) (events : list Event) : State * list Call :=
  match events with
  | [] => (st, [])
  | e :: rest =>
      let (st1, calls1) := step st e in
      let (st2, calls2) := run st1 rest in
      (st2, calls1 ++ calls2)
  end.

Definition isSendSettled (e : Event) : bool :=
  match e with SendResolved | SendRejected => true | _ => false end.

End WithNodeOrder.

End IdentityAware.

(** ** The simple variant ([src/App.jsx]) *)

Module Simple.

(** An entry of [messages]; [id] is the integer reading of [Date.now()]. *)
Record Message := mkMessage {
  user : string;
  message : string;
  id : Z }.

Record State := mkState {
  connection : bool;
  messages : list Message;
  userName : string;
  messageInput : string;
  connected : bool }.

Definition initialState : State := mkState false [] "" "" false.

Definition setConnection (v : bool) (st : State) : State :=
  mkState v (messages st) (userName st) (messageInput st) (connected st).
Definition setMessages (f : list Message -> list Message) (st : State) : State :=
  mkState (connection st) (f (messages st)) (userName st) (messageInput st)
          (connected st).
Definition setUserName (v : string) (st : State) : State :=
  mkState (connection st) (messages st) v (messageInput st) (connected st).
Definition setMessageInput (v : string) (st : State) : State :=
  mkState (connection st) (messages st) (userName st) v (connected st).
Definition setConnected (v : bool) (st : State) : State :=
  mkState (connection st) (messages st) (userName st) (messageInput st) v.

Inductive Call :=
| Start
| SendMessage (name : string) (text : string).

Definition isSendMessage (c : Call) : bool :=
  match c with SendMessage _ _ => true | _ => false end.

(** [connection.on('ReceiveMessage', (user, message) => ...)] *)
Definition onReceiveMessage (user message : string) (now : Z)
    (prev : list Message) : list Message :=
  prev ++ [mkMessage user message now].

Definition startConnection (st : State) : list Call :=
  if connection st then [Start] else [].

(** Only the effect with dependency [connection] talks to the hub (the
    other one scrolls the list). *)
Definition effects (prev next : State) : list Call :=
  if Bool.eqb (connection prev) (connection next) then []
  else startConnection next.

(** [sendMessage] up to the [await] of the hub call. *)
Definition sendMessage (st : State) : State * list Call :=
  if JS.truthy_string (JS.trim (messageInput st))
     && JS.truthy_string (JS.trim (userName st))
     && connection st
  then (st, [SendMessage (JS.trim (userName st)) (messageInput st)])
  else (st, []).

Definition sendMessage_resolved (st : State) : State :=
  setMessageInput "" st.

Definition sendMessage_rejected (st : State) : State := st.

Inductive Event :=
| Mounted
| StartResolved
| StartRejected
| ReceiveMessage (user message : string) (now : Z)
| Reconnected
| Closed
| NameChanged (value : string)
| MessageChanged (value : string)
| Submit
| SendResolved
| SendRejected.

Definition handle (st : State) (e : Event) : State * list Call :=
  match e with
  | Mounted => (setConnection true st, [])
  | StartResolved => (setConnected true st, [])
  | StartRejected => (setConnected false st, [])
  | ReceiveMessage u m now => (setMessages (onReceiveMessage u m now) st, [])
  | Reconnected => (setConnected true st, [])
  | Closed => (setConnected false st, [])
  | NameChanged v => (setUserName v st, [])
  | MessageChanged v => (setMessageInput v st, [])
  | Submit => sendMessage st
  | SendResolved => (sendMessage_resolved st, [])
  | SendRejected => (sendMessage_rejected st, [])
  end.

Definition step (st : State) (e : Event) : State * list Call :=
  let (st', calls) := handle st e in
  (st', calls ++ effects st st').

Fixpoint run (st : State) (events : list Event) : State * list Call :=
  match events with
  | [] => (st, [])
  | e :: rest =>
      let (st1, calls1) := step st e in
      let (st2, calls2) := run st1 rest in
      (st2, calls1 ++ calls2)
  end.

End Simple.

(** The length bounds in the words of the specification: a name of 2 to 20
    characters and a message of 1 to 500 characters, both after trimming. *)
Definition nameWithinBounds (name : string) : bool :=
  (NAME_MIN_LENGTH <=? String.length (JS.trim name))
  && (String.length (JS.trim name) <=? NAME_MAX_LENGTH).

Definition messageWithinBounds (text : string) : bool :=
  (MESSAGE_MIN_LENGTH <=? String.length (JS.trim text))
  && (String.length (JS.trim text) <=? MESSAGE_MAX_LENGTH).

(** The failing rules of a field, in declaration order, with the rule that
    fails first singled out. *)
Definition firstFailingRule (path : string) (schema : Yup.StringSchema)
    (value m : string) : Prop :=
  exists passed r rest,
    schema = passed ++ r :: rest /\
    Forall (fun p => Yup.test p (Yup.cast schema value) = true) passed /\
    Yup.test r (Yup.cast schema value) = false /\
    m = Yup.message path r.

(** ** Vocabulary of the statements *)

(** The last code unit of a string. *)
Fixpoint lastChar (s : string) : option ascii :=
  match s with
  | EmptyString => None
  | String c EmptyString => Some c
  | String _ s' => lastChar s'
  end.

(** A string with leading or trailing whitespace. *)
Definition hasOuterWhiteSpace (s : string) : bool :=
  match s with
  | EmptyString => false
  | String c _ => JS.isWhiteSpace c
  end
  || match lastChar s with
     | Some c => JS.isWhiteSpace c
     | None => false
     end.

(** The message a [ReceiveMessage] event contributes to the log, for each
    variant, and the part of a message that a rename cannot touch. *)
Definition receivedIdentityAware (e : IdentityAware.Event) : list IdentityAware.Message :=
  match e with
  | IdentityAware.ReceiveMessage u m t uid now random =>
      [IdentityAware.mkMessage u m t uid (JS.add (JS.of_Z now) random)]
  | _ => []
  end.

Definition receivedSimple (e : Simple.Event) : list Simple.Message :=
  match e with
  | Simple.ReceiveMessage u m now => [Simple.mkMessage u m now]
  | _ => []
  end.

Definition payload (msg : IdentityAware.Message)
  : string * option string * JS.Id * JS.Number :=
  (IdentityAware.message msg, IdentityAware.timestamp msg,
   IdentityAware.m_userId msg, IdentityAware.id msg).

Definition isJoinResolved (e : IdentityAware.Event) : bool :=
  match e with IdentityAware.JoinResolved _ => true | _ => false end.

(** ** What the components render, and the rest of their handlers *)

(** [s.startsWith(search)] and [s.includes(search)] *)
Fixpoint startsWith (s search : string) : bool :=
  match search, s with
  | EmptyString, _ => true
  | String c search', String d s' => Ascii.eqb c d && startsWith s' search'
  | String _ _, EmptyString => false
  end.

Fixpoint includes (s search : string) : bool :=
  startsWith s search
  || match s with
     | EmptyString => false
     | String _ s' => includes s' search
     end.

Module IdentityAwareView.
Import IdentityAware.

(** The backend chosen from [window.location.hostname] when the connection
    is built, and the URL given to [withUrl]. *)
Definition backendUrl (hostname : string) : string :=
  if includes hostname "azurecontainerapps.io"
  then "https://sepehr-chatapp-backend.happyforest-d52b3acf.westeurope.azurecontainerapps.io"
  else "http://localhost:5002".

Definition hubUrl (hostname : string) : string :=
  (backendUrl hostname ++ "/chatHub")%string.

(** [handleKeyPress(e, action)], with [key] for [e.key]. *)
Definition handleKeyPress (key : string) (action : State -> State * list Call)
    (st : State) : State * list Call :=
  if String.eqb key "Enter" then action st else (st, []).

(** [msg.userId === userId]: the test that aligns a message to the right
    and labels it "(You)". *)
Definition isOwn (st : State) (msg : Message) : bool :=
  JS.strict_eq (m_userId msg) (userId st).

(** The [disabled] attribute of the send button. *)
Definition sendDisabled (st : State) : bool :=
  negb (JS.truthy_string (JS.trim (userName st)))
  || negb (JS.truthy_string (JS.trim (messageInput st)))
  || negb (connected st)
  || negb (JS.truthy (userId st)).

(** The text of the error line: [validationErrors.error && ...] renders
    the line only for a non-empty string. *)
Definition errorLine (st : State) : option string :=
  match validationErrors st with
  | Some m => if JS.truthy_string m then Some m else None
  | None => None
  end.

Definition isStart (c : Call) : bool :=
  match c with Start => true | _ => false end.

(** The connection lifecycle callbacks and the value each one stores in
    [connected]. *)
Definition connectionEvent (e : Event) : option bool :=
  match e with
  | StartResolved | Reconnected => Some true
  | StartRejected | Closed => Some false
  | _ => None
  end.

End IdentityAwareView.

Module SimpleView.
Import Simple.

Definition hubUrl : string := "http://localhost:5002/chatHub".

Definition handleKeyPress (key : string) (action : State -> State * list Call)
    (st : State) : State * list Call :=
  if String.eqb key "Enter" then action st else (st, []).

(** [msg.user === userName.trim()] *)
Definition isOwn (st : State) (msg : Message) : bool :=
  String.eqb (user msg) (JS.trim (userName st)).

(** The [disabled] attribute of the send button. *)
Definition sendDisabled (st : State) : bool :=
  negb (JS.truthy_string (JS.trim (messageInput st)))
  || negb (JS.truthy_string (JS.trim (userName st)))
  || negb (connected st).

Definition isStart (c : Call) : bool :=
  match c with Start => true | _ => false end.

Definition connectionEvent (e : Event) : option bool :=
  match e with
  | StartResolved | Reconnected => Some true
  | StartRejected | Closed => Some false
  | _ => None
  end.

End SimpleView.

(** The value of [connected] after a sequence of events: that of the last
    lifecycle callback, the initial one if there was none. *)
Definition lastConnected {E : Type} (connectionEvent : E -> option bool)
    (events : list E) (initially : bool) : bool :=
  fold_left (fun b e => match connectionEvent e with Some v => v | None => b end)
            events initially.

(** The input caps of the identity-aware variant. *)
Definition withinCaps (st : IdentityAware.State) : Prop :=
  String.length (IdentityAware.userName st) <= NAME_MAX_LENGTH
  /\ String.length (IdentityAware.messageInput st) <= MESSAGE_MAX_LENGTH.

(** The error states the identity-aware variant can be in. *)
Definition knownErrors : list (option string) :=
  [None; Some "Name required"; Some "userName must be at least 2 characters";
   Some "Message required"; Some "Send failed"].

(** ** Handlers of an earlier render

    [sendMessage] is created anew by every render and reads [isSubmitting],
    [connected], [userId], [userName] and [messageInput] from the render
    that created it ([rendered]); what it writes, with [setValidationErrors]
    and [setIsSubmitting] after the [await] of [validate], lands in the
    state as it is by then ([st]).  Until React has committed the next
    render the page keeps the handlers of the earlier one. *)
Definition sendMessageFrom (order : NodeOrder)
    (rendered st : IdentityAware.State)
  : IdentityAware.State * list IdentityAware.Call :=
  if IdentityAware.isSubmitting rendered
     || negb (IdentityAware.connected rendered)
     || negb (JS.truthy (IdentityAware.userId rendered))
  then (st, [])
  else
    match schema_validate order (IdentityAware.userName rendered)
            (IdentityAware.messageInput rendered) with
    | Some m => (IdentityAware.setValidationErrors (Some m) st, [])
    | None =>
        (IdentityAware.setIsSubmitting true
           (IdentityAware.setValidationErrors None st),
         [IdentityAware.SendMessage (IdentityAware.userId rendered)
            (JS.trim (IdentityAware.messageInput rendered))])
    end.

(** The tasks of the event loop when the commit of a render is a task of
    its own: between two commits every submit is handled by [sendMessage]
    of the last committed render, every other handler writes the state
    without reading it from a render, and the effects run at the commit,
    against the dependencies of the render before. *)
Inductive Task :=
| Handle (e : IdentityAware.Event)
| Commit.

Definition stepRendered (order : NodeOrder)
    (session : IdentityAware.State * IdentityAware.State) (t : Task)
  : (IdentityAware.State * IdentityAware.State) * list IdentityAware.Call :=
  let (rendered, st) := session in
  match t with
  | Commit => ((st, st), IdentityAware.effects rendered st)
  | Handle IdentityAware.Submit =>
      let (st', calls) := sendMessageFrom order rendered st in
      ((rendered, st'), calls)
  | Handle e =>
      let (st', calls) := IdentityAware.handle order st e in
      ((rendered, st'), calls)
  end.

Fixpoint runRendered (order : NodeOrder)
    (session : IdentityAware.State * IdentityAware.State) (tasks : list Task)
  : (IdentityAware.State * IdentityAware.State) * list IdentityAware.Call :=
  match tasks with
  | [] => (session, [])
  | t :: rest =>
      let (session1, calls1) := stepRendered order session t in
      let (session2, calls2) := runRendered order session1 rest in
      (session2, calls1 ++ calls2)
  end.

(** ** Facts about strings and the schema *)

Lemma trimStart_head (s : string) :
  match JS.trimStart s with
  | EmptyString => True
  | String c _ => JS.isWhiteSpace c = false
  end.
Proof.
  induction s as [|c s IH]; simpl; [exact I|].
  destruct (JS.isWhiteSpace c) eqn:E; [exact IH | exact E].
Qed.

Lemma trimEnd_idempotent (s : string) : JS.trimEnd (JS.trimEnd s) = JS.trimEnd s.
Proof.
  induction s as [|c s IH]; simpl; [reflexivity|].
  destruct (JS.trimEnd s) as [|d t] eqn:E.
  - destruct (JS.isWhiteSpace c) eqn:W; simpl; [reflexivity|].
    rewrite W. reflexivity.
  - change (JS.trimEnd (String c (String d t))) with
      (match JS.trimEnd (String d t) with
       | EmptyString => if JS.isWhiteSpace c then EmptyString else String c EmptyString
       | u => String c u
       end).
    rewrite IH. reflexivity.
Qed.

Lemma trimStart_trimEnd (s : string) :
  match s with
  | EmptyString => True
  | String c _ => JS.isWhiteSpace c = false
  end ->
  JS.trimStart (JS.trimEnd s) = JS.trimEnd s.
Proof.
  destruct s as [|c s]; simpl; [reflexivity|]. intros W.
  destruct (JS.trimEnd s); rewrite ?W; simpl; rewrite W; reflexivity.
Qed.

Lemma trim_idempotent (s : string) : JS.trim (JS.trim s) = JS.trim s.
Proof.
  unfold JS.trim.
  rewrite (trimStart_trimEnd (JS.trimStart s) (trimStart_head s)).
  apply trimEnd_idempotent.
Qed.

Lemma truthy_string_length (s : string) :
  JS.truthy_string s = negb (String.length s =? 0).
Proof. destruct s; reflexivity. Qed.

(** What a field schema [trim().required(msg).min(lo).max(hi)] answers. *)
Lemma validateString_chain (path msg : string) (lo hi : nat) (value : string) :
  Yup.validateString path [Yup.Trim; Yup.Required msg; Yup.Min lo; Yup.Max hi] value =
  let n := String.length (JS.trim value) in
  if n =? 0 then Some msg
  else if lo <=? n then
         if n <=? hi then None else Some (Yup.message path (Yup.Max hi))
       else Some (Yup.message path (Yup.Min lo)).
Proof.
  unfold Yup.validateString. cbn [Yup.cast fold_left Yup.transform Yup.firstFailure Yup.test].
  rewrite trim_idempotent, String.eqb_refl. cbv zeta.
  destruct (String.length (JS.trim value) =? 0); cbn [negb]; [reflexivity|].
  destruct (lo <=? String.length (JS.trim value)); [|reflexivity].
  destruct (String.length (JS.trim value) <=? hi); reflexivity.
Qed.

Lemma validate_userName (value : string) :
  Yup.validateString "userName" userNameSchema value = None <->
  nameWithinBounds value = true.
Proof.
  unfold userNameSchema, nameWithinBounds. rewrite validateString_chain. cbv zeta.
  unfold NAME_MIN_LENGTH, NAME_MAX_LENGTH.
  destruct (String.length (JS.trim value) =? 0) eqn:E0;
    destruct (2 <=? String.length (JS.trim value)) eqn:E1;
    destruct (String.length (JS.trim value) <=? 20) eqn:E2;
    cbn [andb]; split; intro H; try reflexivity; try discriminate H.
  all: apply Nat.eqb_eq in E0; apply Nat.leb_le in E1; lia.
Qed.

Lemma validate_messageInput (value : string) :
  Yup.validateString "messageInput" messageInputSchema value = None <->
  messageWithinBounds value = true.
Proof.
  unfold messageInputSchema, messageWithinBounds. rewrite validateString_chain. cbv zeta.
  unfold MESSAGE_MIN_LENGTH, MESSAGE_MAX_LENGTH.
  destruct (String.length (JS.trim value) =? 0) eqn:E0;
    destruct (1 <=? String.length (JS.trim value)) eqn:E1;
    destruct (String.length (JS.trim value) <=? 500) eqn:E2;
    cbn [andb]; split; intro H; try reflexivity; try discriminate H.
  all: apply Nat.eqb_eq in E0; apply Nat.leb_le in E1; lia.
Qed.

Lemma schema_validate_None (order : NodeOrder) (name text : string) :
  schema_validate order name text = None <->
  nameWithinBounds name = true /\ messageWithinBounds text = true.
Proof.
  rewrite <- validate_userName, <- validate_messageInput.
  unfold schema_validate, schema_nodes.
  destruct order; cbn [rev app Yup.validateFields];
    destruct (Yup.validateString "userName" userNameSchema name);
    destruct (Yup.validateString "messageInput" messageInputSchema text);
    split; try (intros [H1 H2]); try intro H; try discriminate; auto.
Qed.

Lemma firstFailure_sound (path : string) (rules : list Yup.Rule) (v m : string) :
  Yup.firstFailure path rules v = Some m ->
  exists passed r rest,
    rules = passed ++ r :: rest /\
    Forall (fun p => Yup.test p v = true) passed /\
    Yup.test r v = false /\ m = Yup.message path r.
Proof.
  induction rules as [|r rules IH]; simpl; [discriminate|].
  destruct (Yup.test r v) eqn:T.
  - intros H. destruct (IH H) as (passed & r' & rest & -> & HF & HT & ->).
    exists (r :: passed), r', rest. repeat split; auto.
  - intros [= <-]. exists [], r, rules. repeat split; auto.
Qed.

Lemma validateString_sound (path : string) (schema : Yup.StringSchema) (v m : string) :
  Yup.validateString path schema v = Some m -> firstFailingRule path schema v m.
Proof. unfold Yup.validateString. apply firstFailure_sound. Qed.

(** A rejection of the object schema carries the first failing rule of one
    of the two fields; of the field visited first if that one fails. *)
Lemma schema_validate_Some (order : NodeOrder) (name text m : string) :
  schema_validate order name text = Some m ->
  firstFailingRule "userName" userNameSchema name m \/
  firstFailingRule "messageInput" messageInputSchema text m.
Proof.
  unfold schema_validate, schema_nodes.
  destruct order; cbn [rev app Yup.validateFields];
    destruct (Yup.validateString "userName" userNameSchema name) eqn:En;
    destruct (Yup.validateString "messageInput" messageInputSchema text) eqn:Em;
    intros [= <-]; eauto using validateString_sound.
Qed.

Lemma firstFailure_complete (path : string) (passed rest : list Yup.Rule)
    (r : Yup.Rule) (v : string) :
  Forall (fun p => Yup.test p v = true) passed ->
  Yup.test r v = false ->
  Yup.firstFailure path (passed ++ r :: rest) v = Some (Yup.message path r).
Proof.
  intros HF HT. induction HF as [|p passed Hp _ IH]; cbn.
  - now rewrite HT.
  - now rewrite Hp.
Qed.

Lemma firstFailingRule_rejects (path : string) (schema : Yup.StringSchema)
    (v m : string) :
  firstFailingRule path schema v m -> Yup.validateString path schema v = Some m.
Proof.
  intros (passed & r & rest & Es & HF & HT & ->). unfold Yup.validateString.
  set (c := Yup.cast schema v) in *. rewrite Es.
  now apply firstFailure_complete.
Qed.

(** ** Properties of the identity-aware variant *)

Module IdentityAwareFacts.
Import IdentityAware.

(** Case analysis on every condition left in the goal. *)
Ltac destruct_conditions :=
  repeat match goal with
         | |- context [if ?b then _ else _] => destruct b
         end.

Lemma strict_eq_refl (v : JS.Id) : JS.strict_eq v v = true.
Proof. destruct v; simpl; auto using Z.eqb_refl. Qed.

Lemma strict_eq_true (a b : JS.Id) : JS.strict_eq a b = true <-> a = b.
Proof.
  destruct a, b; simpl; split; intro H; try discriminate; try reflexivity.
  - apply Z.eqb_eq in H. now subst.
  - injection H as ->. apply Z.eqb_refl.
Qed.

(** Effects only depend on the cells of the dependency arrays. *)
Lemma effects_same_deps (prev next : State) :
  connection next = connection prev -> connected next = connected prev ->
  userName next = userName prev -> userId next = userId prev ->
  effects prev next = [].
Proof.
  intros H1 H2 H3 H4. unfold effects, deps_eqb. rewrite H1, H2, H3, H4.
  now rewrite !Bool.eqb_reflx, String.eqb_refl, strict_eq_refl.
Qed.

Lemma effects_no_send (prev next : State) :
  filter isSendMessage (effects prev next) = [].
Proof.
  unfold effects, startConnection, joinChat, updateNameEffect, updateName.
  destruct_conditions; reflexivity.
Qed.

(** No effect invokes [JoinChat] once the identity is truthy. *)
Lemma effects_no_join (prev next : State) :
  JS.truthy (userId next) = true ->
  filter isJoinChat (effects prev next) = [].
Proof.
  intros T. unfold effects, startConnection, joinChat, updateNameEffect, updateName.
  rewrite T. cbn [negb]. rewrite !andb_false_r.
  destruct_conditions; reflexivity.
Qed.

Section WithNodeOrder.
Variable order : NodeOrder.

(** The three ways [sendMessage] can go. *)
Lemma sendMessage_cases (st : State) :
  (isSubmitting st || negb (connected st) || negb (JS.truthy (userId st)) = true
   /\ sendMessage order st = (st, []))
  \/ (isSubmitting st = false /\ connected st = true /\ JS.truthy (userId st) = true
      /\ exists m, schema_validate order (userName st) (messageInput st) = Some m
         /\ sendMessage order st = (setValidationErrors (Some m) st, []))
  \/ (isSubmitting st = false /\ connected st = true /\ JS.truthy (userId st) = true
      /\ schema_validate order (userName st) (messageInput st) = None
      /\ sendMessage order st =
           (setIsSubmitting true (setValidationErrors None st),
            [SendMessage (userId st) (JS.trim (messageInput st))])).
Proof.
  unfold sendMessage, validate.
  destruct (isSubmitting st) eqn:S; cbn [orb]; [left; auto|].
  destruct (connected st) eqn:C; cbn [orb negb]; [|left; auto].
  destruct (JS.truthy (userId st)) eqn:T; cbn [orb negb]; [|left; auto].
  destruct (schema_validate order (userName st) (messageInput st)) as [m|] eqn:V;
    cbn [negb].
  - right; left. repeat split; auto. exists m. auto.
  - right; right. repeat split; auto.
Qed.

Lemma sendMessage_frame (st : State) :
  let st' := fst (sendMessage order st) in
  connection st' = connection st /\ messages st' = messages st /\
  userName st' = userName st /\ messageInput st' = messageInput st /\
  connected st' = connected st /\ userId st' = userId st.
Proof.
  destruct (sendMessage_cases st) as [[_ E]|[(_ & _ & _ & m & _ & E)|(_ & _ & _ & _ & E)]];
    rewrite E; cbn; repeat split; reflexivity.
Qed.

Lemma step_Submit (st : State) : step order st Submit = sendMessage order st.
Proof.
  unfold step. cbn [handle].
  pose proof (sendMessage_frame st) as (H1 & _ & H3 & _ & H5 & H6).
  destruct (sendMessage order st) as [st' calls]. cbn [fst] in *.
  now rewrite (effects_same_deps st st'), app_nil_r.
Qed.

Lemma step_SendResolved (st : State) :
  step order st SendResolved = (sendMessage_resolved st, []).
Proof. unfold step. cbn [handle]. now rewrite effects_same_deps. Qed.

Lemma step_SendRejected (st : State) :
  step order st SendRejected = (sendMessage_rejected st, []).
Proof. unfold step. cbn [handle]. now rewrite effects_same_deps. Qed.

Lemma run_app (st : State) (xs ys : list Event) :
  run order st (xs ++ ys) =
  let (st1, c1) := run order st xs in
  let (st2, c2) := run order st1 ys in
  (st2, c1 ++ c2).
Proof.
  revert st. induction xs as [|e xs IH]; intros st; cbn [run app].
  - destruct (run order st ys). reflexivity.
  - destruct (step order st e) as [st1 c1]. rewrite IH.
    destruct (run order st1 xs) as [st2 c2].
    destruct (run order st2 ys) as [st3 c3]. now rewrite app_assoc.
Qed.

(** Which events leave [isSubmitting] alone. *)
Lemma step_keeps_isSubmitting (st : State) (e : Event) :
  isSubmitting st = true -> isSendSettled e = false ->
  isSubmitting (fst (step order st e)) = true
  /\ filter isSendMessage (snd (step order st e)) = [].
Proof.
  intros S NS. destruct e; try discriminate NS;
    try (unfold step; cbn [handle fst snd]; rewrite app_nil_l, effects_no_send;
         split; [exact S | reflexivity]).
  rewrite step_Submit. unfold sendMessage. rewrite S. cbn. auto.
Qed.

(** A step sends at most once, and a step that sends raises the flag. *)
Lemma step_sends (st : State) (e : Event) :
  filter isSendMessage (snd (step order st e)) = []
  \/ (isSubmitting (fst (step order st e)) = true
      /\ List.length (filter isSendMessage (snd (step order st e))) = 1).
Proof.
  destruct e;
    try (left; unfold step; cbn [handle fst snd];
         rewrite app_nil_l; apply effects_no_send).
  rewrite step_Submit.
  destruct (sendMessage_cases st) as [[_ E]|[(_ & _ & _ & m & _ & E)|(_ & _ & _ & _ & E)]];
    rewrite E; cbn; auto.
Qed.

End WithNodeOrder.

End IdentityAwareFacts.

(** ** Properties of the simple variant *)

Module SimpleFacts.
Import Simple.

Lemma effects_same_connection (prev next : State) :
  connection next = connection prev -> effects prev next = [].
Proof. intros H. unfold effects. now rewrite H, Bool.eqb_reflx. Qed.

Lemma simple_step_Submit (st : State) : step st Submit = sendMessage st.
Proof.
  unfold step. cbn [handle]. unfold sendMessage.
  destruct (_ && _ && _); now rewrite effects_same_connection.
Qed.

Lemma simple_step_SendResolved (st : State) :
  step st SendResolved = (sendMessage_resolved st, []).
Proof. unfold step. cbn [handle]. now rewrite effects_same_connection. Qed.

Lemma simple_step_messages (st : State) (e : Event) :
  messages (fst (step st e)) = messages st ++ receivedSimple e.
Proof.
  destruct e; unfold step; cbn [handle receivedSimple];
    try (cbn; now rewrite ?app_nil_r).
  unfold sendMessage. destruct (_ && _ && _); cbn; now rewrite app_nil_r.
Qed.

Lemma simple_run_messages (st : State) (events : list Event) :
  messages (fst (run st events)) = messages st ++ flat_map receivedSimple events.
Proof.
  revert st. induction events as [|e events IH]; intros st; cbn [run flat_map].
  - cbn. now rewrite app_nil_r.
  - pose proof (simple_step_messages st e) as H.
    destruct (step st e) as [st1 c1]. cbn [fst] in H.
    specialize (IH st1). destruct (run st1 events) as [st2 c2]. cbn [fst] in *.
    now rewrite IH, H, app_assoc.
Qed.

End SimpleFacts.

(** ** Trimming removes outer whitespace *)

Lemma trimEnd_last (s : string) :
  match lastChar (JS.trimEnd s) with
  | Some c => JS.isWhiteSpace c = false
  | None => True
  end.
Proof.
  induction s as [|c s IH]; cbn [JS.trimEnd]; [exact I|].
  destruct (JS.trimEnd s) as [|d t].
  - destruct (JS.isWhiteSpace c) eqn:W; cbn; [exact I | exact W].
  - exact IH.
Qed.

Lemma trimEnd_head (s : string) :
  match s with
  | EmptyString => True
  | String c _ => JS.isWhiteSpace c = false
  end ->
  match JS.trimEnd s with
  | EmptyString => True
  | String c _ => JS.isWhiteSpace c = false
  end.
Proof.
  destruct s as [|c s]; cbn [JS.trimEnd]; [auto|]. intros W.
  destruct (JS.trimEnd s); [rewrite W|]; exact W.
Qed.

Lemma trim_changes_outer_whitespace (s : string) :
  hasOuterWhiteSpace s = true -> JS.trim s <> s.
Proof.
  unfold hasOuterWhiteSpace. intros H E.
  pose proof (trimEnd_head _ (trimStart_head s)) as Hh.
  pose proof (trimEnd_last (JS.trimStart s)) as Hl.
  fold (JS.trim s) in Hh, Hl. rewrite E in Hh, Hl.
  destruct s as [|c s]; [discriminate H|].
  rewrite Hh in H. cbn [orb] in H.
  destruct (lastChar (String c s)); [congruence | discriminate].
Qed.

(** ** Traces of the identity-aware variant *)

Module IdentityAwareTraces.
Import IdentityAware IdentityAwareFacts.

Lemma rename_payload (oldName newName : string) (uid : JS.Id) (log : list Message) :
  map payload (onUserNameUpdated oldName newName uid log) = map payload log.
Proof.
  unfold onUserNameUpdated. rewrite map_map. apply map_ext.
  intros msg. destruct (JS.strict_eq (m_userId msg) uid); reflexivity.
Qed.

Lemma updateNameEffect_In (st : State) (uid : JS.Id) (newName : string) :
  In (UpdateUserName uid newName) (updateNameEffect st) ->
  uid = userId st /\ JS.truthy uid = true
  /\ newName = JS.trim (userName st) /\ JS.truthy_string newName = true
  /\ connected st = true.
Proof.
  unfold updateNameEffect, updateName.
  destruct (JS.truthy (userId st)) eqn:T; [|intros []].
  destruct (connection st); destruct (connected st);
    destruct (JS.truthy_string (JS.trim (userName st))) eqn:N;
    cbn; try (intros F; exact (False_ind _ F)).
  intros [H|[]]. injection H as <- <-. auto.
Qed.

Lemma effects_In_rename (prev next : State) (uid : JS.Id) (newName : string) :
  In (UpdateUserName uid newName) (effects prev next) ->
  In (UpdateUserName uid newName) (updateNameEffect next).
Proof.
  unfold effects. intros H. apply in_app_or in H as [H|H].
  - destruct (Bool.eqb _ _); [destruct H|]. unfold startConnection in H.
    destruct (connection next); [destruct H as [H|[]]; discriminate H | destruct H].
  - destruct (deps_eqb _ _); [destruct H|].
    apply in_app_or in H as [H|H]; [|exact H]. unfold joinChat in H.
    destruct (_ && _ && _ && _); [destruct H as [H|[]]; discriminate H | destruct H].
Qed.

Section WithNodeOrder.
Variable order : NodeOrder.

Lemma step_payload (st : State) (e : Event) :
  map payload (messages (fst (step order st e))) =
  map payload (messages st) ++ map payload (receivedIdentityAware e).
Proof.
  destruct e;
    try (unfold step; cbn [handle fst receivedIdentityAware map];
         cbn; now rewrite ?app_nil_r).
  - unfold step. cbn [handle fst receivedIdentityAware]. cbn.
    unfold onReceiveMessage. now rewrite map_app.
  - unfold step. cbn [handle fst receivedIdentityAware]. cbn.
    now rewrite rename_payload, app_nil_r.
  - rewrite step_Submit. cbn [receivedIdentityAware map].
    destruct (sendMessage_frame order st) as (_ & -> & _). now rewrite app_nil_r.
Qed.

Lemma run_payload (st : State) (events : list Event) :
  map payload (messages (fst (run order st events))) =
  map payload (messages st) ++ map payload (flat_map receivedIdentityAware events).
Proof.
  revert st. induction events as [|e events IH]; intros st; cbn [run flat_map].
  - cbn. now rewrite app_nil_r.
  - pose proof (step_payload st e) as H.
    destruct (step order st e) as [st1 c1]. cbn [fst] in H.
    specialize (IH st1). destruct (run order st1 events) as [st2 c2]. cbn [fst] in *.
    now rewrite IH, H, map_app, app_assoc.
Qed.

Lemma step_userId (st : State) (e : Event) :
  isJoinResolved e = false -> userId (fst (step order st e)) = userId st.
Proof.
  intros NJ. destruct e; try discriminate NJ;
    try (unfold step; cbn [handle fst]; reflexivity).
  rewrite step_Submit. now destruct (sendMessage_frame order st) as (_ & _ & _ & _ & _ & ->).
Qed.

Lemma handle_no_join (st : State) (e : Event) :
  filter isJoinChat (snd (handle order st e)) = [].
Proof.
  destruct e; try reflexivity. cbn [handle].
  destruct (sendMessage_cases order st)
    as [[_ E]|[(_ & _ & _ & m & _ & E)|(_ & _ & _ & _ & E)]];
    rewrite E; reflexivity.
Qed.

Lemma step_no_join (st : State) (e : Event) :
  JS.truthy (userId (fst (step order st e))) = true ->
  filter isJoinChat (snd (step order st e)) = [].
Proof.
  unfold step. pose proof (handle_no_join st e) as H.
  destruct (handle order st e) as [st' calls]. cbn [fst snd] in *. intros T.
  now rewrite filter_app, H, effects_no_join.
Qed.

(** Once the identity is truthy, no event other than the settlement of a
    join changes it, and [JoinChat] is not invoked again. *)
Lemma run_no_join (st : State) (events : list Event) :
  JS.truthy (userId st) = true ->
  forallb (fun e => negb (isJoinResolved e)) events = true ->
  userId (fst (run order st events)) = userId st
  /\ filter isJoinChat (snd (run order st events)) = [].
Proof.
  revert st. induction events as [|e events IH]; intros st T NJ; cbn [run].
  - cbn. auto.
  - cbn [forallb] in NJ. apply andb_true_iff in NJ as [NJ1 NJ2].
    apply negb_true_iff in NJ1.
    pose proof (step_userId st e NJ1) as HU.
    pose proof (step_no_join st e) as HJ. rewrite HU in HJ. specialize (HJ T).
    destruct (step order st e) as [st1 c1]. cbn [fst snd] in *.
    rewrite <- HU in T. destruct (IH st1 T NJ2) as [IH1 IH2].
    destruct (run order st1 events) as [st2 c2]. cbn [fst snd] in *.
    split; [congruence|]. now rewrite filter_app, HJ, IH2.
Qed.

(** When every submit is handled by the render that shows the state it
    finds: while no send settles, at most one [SendMessage] leaves, and none
    if the flag is already up. *)
Lemma run_sends (st : State) (events : list Event) :
  forallb (fun e => negb (isSendSettled e)) events = true ->
  List.length (filter isSendMessage (snd (run order st events))) <= 1
  /\ (isSubmitting st = true ->
      filter isSendMessage (snd (run order st events)) = []).
Proof.
  revert st. induction events as [|e events IH]; intros st NS; cbn [run].
  - cbn. auto.
  - cbn [forallb] in NS. apply andb_true_iff in NS as [NS1 NS2].
    apply negb_true_iff in NS1.
    pose proof (step_keeps_isSubmitting order st e) as HK.
    pose proof (step_sends order st e) as HS.
    destruct (step order st e) as [st1 c1]. cbn [fst snd] in *.
    destruct (IH st1 NS2) as [IH1 IH2].
    destruct (run order st1 events) as [st2 c2]. cbn [fst snd] in *.
    rewrite filter_app, length_app. split.
    + destruct HS as [-> | [S1 L1]]; [exact IH1|].
      rewrite (IH2 S1), L1. cbn. lia.
    + intros S. destruct (HK S NS1) as [S1 ->]. cbn. now apply IH2.
Qed.

(** Every [UpdateUserName] a step invokes carries the truthy identity and
    the non-empty trimmed name of the state the step leaves. *)
Lemma step_rename_calls (st : State) (e : Event) (uid : JS.Id) (newName : string) :
  In (UpdateUserName uid newName) (snd (step order st e)) ->
  uid = userId (fst (step order st e))
  /\ JS.truthy uid = true
  /\ newName = JS.trim (userName (fst (step order st e)))
  /\ JS.truthy_string newName = true
  /\ connected (fst (step order st e)) = true.
Proof.
  unfold step.
  assert (~ In (UpdateUserName uid newName) (snd (handle order st e))) as NH.
  { destruct e; cbn [handle snd]; try (intros []).
    destruct (sendMessage_cases order st)
      as [[_ E]|[(_ & _ & _ & m & _ & E)|(_ & _ & _ & _ & E)]];
      rewrite E; cbn; intros H; try destruct H as [H|H]; try discriminate H; auto. }
  destruct (handle order st e) as [st' calls]. cbn [fst snd] in *.
  intros H. apply in_app_or in H as [H|H]; [contradiction|].
  now apply updateNameEffect_In, effects_In_rename with (prev := st).
Qed.

(** The settlement of a join is itself a change of the rename effect's
    dependencies: the rename call follows at once, with the name as it is. *)
Lemma join_settlement_invokes_rename (st : State) (n : Z) :
  connection st = true -> connected st = true ->
  JS.truthy_string (JS.trim (userName st)) = true ->
  JS.truthy (userId st) = false -> n <> 0%Z ->
  step order st (JoinResolved (JS.Num n))
  = (setUserId (JS.Num n) st, [UpdateUserName (JS.Num n) (JS.trim (userName st))]).
Proof.
  intros Hc Hd Hn Hu Hz. unfold step. cbn [handle app]. f_equal.
  unfold effects, deps_eqb, joinChat, updateNameEffect, updateName.
  cbn [setUserId connection connected userName userId].
  rewrite !Bool.eqb_reflx, String.eqb_refl, Hc, Hd, Hn.
  apply Z.eqb_neq in Hz. cbn [JS.truthy andb]. rewrite Hz. cbn [negb app].
  destruct (userId st) as [| |k]; cbn [JS.strict_eq]; try reflexivity.
  cbn [JS.truthy] in Hu. apply negb_false_iff, Z.eqb_eq in Hu. subst k.
  rewrite Z.eqb_sym, Hz. reflexivity.
Qed.

End WithNodeOrder.

End IdentityAwareTraces.

(** ** Handlers of an earlier render: facts *)

Lemma sendMessageFrom_same (order : NodeOrder) (st : IdentityAware.State) :
  sendMessageFrom order st st = IdentityAware.sendMessage order st.
Proof.
  unfold sendMessageFrom, IdentityAware.sendMessage, IdentityAware.validate.
  destruct (_ || _ || _); [reflexivity|].
  now destruct (schema_validate order (IdentityAware.userName st)
                  (IdentityAware.messageInput st)).
Qed.

Lemma sendMessageFrom_calls (order : NodeOrder) (rendered st : IdentityAware.State) :
  snd (sendMessageFrom order rendered st)
  = if negb (IdentityAware.isSubmitting rendered) && IdentityAware.connected rendered
       && JS.truthy (IdentityAware.userId rendered)
       && nameWithinBounds (IdentityAware.userName rendered)
       && messageWithinBounds (IdentityAware.messageInput rendered)
    then [IdentityAware.SendMessage (IdentityAware.userId rendered)
            (JS.trim (IdentityAware.messageInput rendered))]
    else [].
Proof.
  unfold sendMessageFrom.
  pose proof (schema_validate_None order (IdentityAware.userName rendered)
                (IdentityAware.messageInput rendered)) as HN.
  destruct (IdentityAware.isSubmitting rendered); [reflexivity|].
  destruct (IdentityAware.connected rendered); [|reflexivity].
  destruct (JS.truthy (IdentityAware.userId rendered)); [|reflexivity].
  cbn [negb orb andb].
  destruct (schema_validate order (IdentityAware.userName rendered)
              (IdentityAware.messageInput rendered)) as [m|]; cbn [snd].
  - destruct (nameWithinBounds (IdentityAware.userName rendered));
      destruct (messageWithinBounds (IdentityAware.messageInput rendered));
      try reflexivity.
    assert (Some m = None) as A by (apply HN; auto). discriminate A.
  - destruct HN as [HN _]. destruct (HN eq_refl) as [-> ->]. reflexivity.
Qed.

Lemma sendMessageFrom_isSubmitting (order : NodeOrder)
    (rendered st : IdentityAware.State) :
  IdentityAware.isSubmitting (fst (sendMessageFrom order rendered st))
  = IdentityAware.isSubmitting st
    || negb (match snd (sendMessageFrom order rendered st) with
             | [] => true
             | _ :: _ => false
             end).
Proof.
  unfold sendMessageFrom.
  destruct (_ || _ || _); [cbn; now rewrite orb_false_r|].
  destruct (schema_validate order (IdentityAware.userName rendered)
              (IdentityAware.messageInput rendered));
    cbn; [now rewrite orb_false_r | now rewrite orb_true_r].
Qed.

(** A commit after every event is the event loop [run]. *)
Lemma stepRendered_then_commit (order : NodeOrder) (st : IdentityAware.State)
    (e : IdentityAware.Event) :
  runRendered order (st, st) [Handle e; Commit]
  = let (st', calls) := IdentityAware.step order st e in ((st', st'), calls).
Proof.
  unfold IdentityAware.step. cbn [runRendered].
  assert (stepRendered order (st, st) (Handle e)
          = let (st', calls) := IdentityAware.handle order st e in ((st, st'), calls))
    as H.
  { destruct e; try reflexivity. cbn [stepRendered IdentityAware.handle].
    now rewrite sendMessageFrom_same. }
  rewrite H. destruct (IdentityAware.handle order st e) as [st' calls].
  cbn [stepRendered]. now rewrite app_nil_r.
Qed.

Lemma runRendered_app (order : NodeOrder)
    (session : IdentityAware.State * IdentityAware.State) (xs ys : list Task) :
  runRendered order session (xs ++ ys)
  = let (s1, c1) := runRendered order session xs in
    let (s2, c2) := runRendered order s1 ys in
    (s2, c1 ++ c2).
Proof.
  revert session. induction xs as [|t xs IH]; intros session; cbn [runRendered app].
  - now destruct (runRendered order session ys).
  - destruct (stepRendered order session t) as [s1 c1]. rewrite IH.
    destruct (runRendered order s1 xs) as [s2 c2].
    destruct (runRendered order s2 ys) as [s3 c3]. now rewrite app_assoc.
Qed.

Lemma runRendered_commit_after_every_event (order : NodeOrder)
    (st : IdentityAware.State) (events : list IdentityAware.Event) :
  runRendered order (st, st) (flat_map (fun e => [Handle e; Commit]) events)
  = let (st', calls) := IdentityAware.run order st events in ((st', st'), calls).
Proof.
  revert st. induction events as [|e events IH]; intros st; [reflexivity|].
  cbn [flat_map IdentityAware.run]. rewrite runRendered_app.
  rewrite stepRendered_then_commit.
  destruct (IdentityAware.step order st e) as [st1 c1]. rewrite IH.
  now destruct (IdentityAware.run order st1 events).
Qed.

(** ** The claims *)

(** C5.  For every log and every rename event [(oldName, newName,
    renamedUserId)], the [UserNameUpdated] handler keeps the length and the
    order of the log, sets [user] to [newName] in exactly the messages whose
    [userId] equals [renamedUserId], keeps every other field of every
    message, returns the other messages as they were, and is idempotent. *)
Theorem rename_rewrites_exactly_the_matching_authors
    (oldName newName : string) (renamedUserId : JS.Id)
    (log : list IdentityAware.Message) :
  let log' := IdentityAware.onUserNameUpdated oldName newName renamedUserId log in
  List.length log' = List.length log
  /\ (forall i msg, nth_error log i = Some msg ->
      exists msg', nth_error log' i = Some msg'
        /\ IdentityAware.message msg' = IdentityAware.message msg
        /\ IdentityAware.timestamp msg' = IdentityAware.timestamp msg
        /\ IdentityAware.m_userId msg' = IdentityAware.m_userId msg
        /\ IdentityAware.id msg' = IdentityAware.id msg
        /\ (IdentityAware.m_userId msg = renamedUserId ->
            IdentityAware.user msg' = newName)
        /\ (IdentityAware.m_userId msg <> renamedUserId -> msg' = msg))
  /\ IdentityAware.onUserNameUpdated oldName newName renamedUserId log' = log'.
Proof.
  cbv zeta. unfold IdentityAware.onUserNameUpdated. split; [apply length_map|]. split.
  - intros i msg Hi. rewrite nth_error_map, Hi. cbn [option_map].
    eexists. split; [reflexivity|].
    destruct (JS.strict_eq (IdentityAware.m_userId msg) renamedUserId) eqn:E.
    + repeat split; auto. intros NE.
      apply IdentityAwareFacts.strict_eq_true in E. contradiction.
    + repeat split; auto. intros Eq. rewrite Eq in E.
      now rewrite IdentityAwareFacts.strict_eq_refl in E.
  - rewrite map_map. apply map_ext. intros msg.
    destruct (JS.strict_eq (IdentityAware.m_userId msg) renamedUserId) eqn:E.
    + cbn. now rewrite E.
    + now rewrite E.
Qed.

(** C10.  In the identity-aware variant [validate] answers [true] exactly
    when the schema accepts, and then stores the empty error state; when the
    schema rejects it answers [false] and stores exactly one string, the
    message of the first failing rule of a field (of the only failing field
    when one fails).  A submit that goes on to send leaves the error state
    empty.  No other cell changes. *)
Theorem validate_clears_or_stores_first_failure
    (order : NodeOrder) (st : IdentityAware.State) :
  let (st', ok) := IdentityAware.validate order st in
  (ok = true ->
     IdentityAware.validationErrors st' = None
     /\ nameWithinBounds (IdentityAware.userName st) = true
     /\ messageWithinBounds (IdentityAware.messageInput st) = true)
  /\ (ok = false ->
      exists m,
        IdentityAware.validationErrors st' = Some m
        /\ (firstFailingRule "userName" userNameSchema (IdentityAware.userName st) m
            \/ firstFailingRule "messageInput" messageInputSchema
                 (IdentityAware.messageInput st) m)
        /\ (nameWithinBounds (IdentityAware.userName st) = true ->
            firstFailingRule "messageInput" messageInputSchema
              (IdentityAware.messageInput st) m)
        /\ (messageWithinBounds (IdentityAware.messageInput st) = true ->
            firstFailingRule "userName" userNameSchema (IdentityAware.userName st) m))
  /\ (ok = true <-> nameWithinBounds (IdentityAware.userName st) = true
                    /\ messageWithinBounds (IdentityAware.messageInput st) = true)
  /\ st' = IdentityAware.setValidationErrors (IdentityAware.validationErrors st') st
  /\ (forall st1 call, IdentityAware.sendMessage order st = (st1, [call]) ->
      IdentityAware.validationErrors st1 = None).
Proof.
  unfold IdentityAware.validate.
  pose proof (schema_validate_None order (IdentityAware.userName st)
                (IdentityAware.messageInput st)) as HN.
  pose proof (schema_validate_Some order (IdentityAware.userName st)
                (IdentityAware.messageInput st)) as HS.
  pose proof (IdentityAwareFacts.sendMessage_cases order st) as HC.
  destruct (schema_validate order (IdentityAware.userName st)
              (IdentityAware.messageInput st)) as [m|] eqn:V.
  - specialize (HS m eq_refl).
    split; [discriminate|]. split; [|split; [|split]].
    + intros _. exists m. split; [reflexivity|]. split; [exact HS|]. split.
      * intros Hn. destruct HS as [H|H]; [|exact H].
        apply firstFailingRule_rejects in H. apply validate_userName in Hn. congruence.
      * intros Hm. destruct HS as [H|H]; [exact H|].
        apply firstFailingRule_rejects in H. apply validate_messageInput in Hm.
        congruence.
    + split; [discriminate|]. intros H. apply HN in H. discriminate H.
    + reflexivity.
    + intros st1 call E.
      destruct HC as [[_ E']|[(_ & _ & _ & m' & _ & E')|(_ & _ & _ & V' & _)]];
        [rewrite E' in E; discriminate E | rewrite E' in E; discriminate E
        | discriminate V'].
  - split; [|split; [discriminate|split; [|split]]].
    + intros _. split; [reflexivity|]. now apply HN.
    + split; [intros _; now apply HN | reflexivity].
    + reflexivity.
    + intros st1 call E.
      destruct HC as [[_ E']|[(_ & _ & _ & m' & V' & _)|(_ & _ & _ & _ & E')]];
        [rewrite E' in E; discriminate E | discriminate V' | ].
      rewrite E' in E. injection E as <- _. reflexivity.
Qed.

(** C8.  In the identity-aware variant [isSubmitting] is [false] after the
    submit action completes: a validation short-circuit (reached only with
    the flag down) leaves it down and sends nothing; any execution that sends
    nothing leaves the flag as it found it; and whatever happened in between,
    the settlement of the hub call, resolved or rejected, lowers it. *)
Theorem isSubmitting_is_reset_in_all_cases (order : NodeOrder) :
  (forall st m,
      IdentityAware.isSubmitting st = false ->
      IdentityAware.connected st = true ->
      JS.truthy (IdentityAware.userId st) = true ->
      schema_validate order (IdentityAware.userName st)
        (IdentityAware.messageInput st) = Some m ->
      snd (IdentityAware.sendMessage order st) = []
      /\ IdentityAware.isSubmitting (fst (IdentityAware.sendMessage order st)) = false)
  /\ (forall st,
      snd (IdentityAware.sendMessage order st) = [] ->
      IdentityAware.isSubmitting (fst (IdentityAware.sendMessage order st))
      = IdentityAware.isSubmitting st)
  /\ (forall st,
      IdentityAware.isSubmitting (IdentityAware.sendMessage_resolved st) = false)
  /\ (forall st,
      IdentityAware.isSubmitting (IdentityAware.sendMessage_rejected st) = false)
  /\ (forall st events e,
      IdentityAware.isSendSettled e = true ->
      IdentityAware.isSubmitting
        (fst (IdentityAware.run order st (events ++ [e]))) = false).
Proof.
  split; [|split; [|split; [|split]]].
  - intros st m S C T V.
    destruct (IdentityAwareFacts.sendMessage_cases order st)
      as [[G _]|[(_ & _ & _ & m' & _ & E)|(_ & _ & _ & V' & _)]].
    + rewrite S, C, T in G. discriminate G.
    + rewrite E. cbn. auto.
    + congruence.
  - intros st H.
    destruct (IdentityAwareFacts.sendMessage_cases order st)
      as [[_ E]|[(_ & _ & _ & m' & _ & E)|(_ & _ & _ & _ & E)]];
      rewrite E in *; cbn in *; [reflexivity | reflexivity | discriminate H].
  - reflexivity.
  - reflexivity.
  - intros st events e He. rewrite IdentityAwareFacts.run_app.
    destruct (IdentityAware.run order st events) as [st1 c1]. cbn [IdentityAware.run].
    destruct e; try discriminate He.
    + rewrite IdentityAwareFacts.step_SendResolved. reflexivity.
    + rewrite IdentityAwareFacts.step_SendRejected. reflexivity.
Qed.

(** C6.  For every valid (name, message) pair, in both variants: a submit
    from a state that is ready to send invokes [SendMessage] once, and when
    the call resolves the message input is empty and the name is the one
    typed; the continuation after a resolved call empties the message input
    from any state; and no part of the submit action, on any path, changes
    the name. *)
Theorem successful_submit_clears_message_only
    (order : NodeOrder) (name text : string) :
  nameWithinBounds name = true ->
  messageWithinBounds text = true ->
  (forall st,
      IdentityAware.userName st = name -> IdentityAware.messageInput st = text ->
      IdentityAware.isSubmitting st = false -> IdentityAware.connected st = true ->
      JS.truthy (IdentityAware.userId st) = true ->
      exists st',
        IdentityAware.run order st [IdentityAware.Submit; IdentityAware.SendResolved]
        = (st', [IdentityAware.SendMessage (IdentityAware.userId st) (JS.trim text)])
        /\ IdentityAware.messageInput st' = ""
        /\ IdentityAware.userName st' = name)
  /\ (forall st,
      Simple.userName st = name -> Simple.messageInput st = text ->
      Simple.connection st = true ->
      exists st',
        Simple.run st [Simple.Submit; Simple.SendResolved]
        = (st', [Simple.SendMessage (JS.trim name) text])
        /\ Simple.messageInput st' = ""
        /\ Simple.userName st' = name)
  /\ (forall st,
      IdentityAware.messageInput (IdentityAware.sendMessage_resolved st) = ""
      /\ IdentityAware.userName (IdentityAware.sendMessage_resolved st)
         = IdentityAware.userName st
      /\ IdentityAware.userName (IdentityAware.sendMessage_rejected st)
         = IdentityAware.userName st
      /\ IdentityAware.userName (fst (IdentityAware.sendMessage order st))
         = IdentityAware.userName st)
  /\ (forall st,
      Simple.messageInput (Simple.sendMessage_resolved st) = ""
      /\ Simple.userName (Simple.sendMessage_resolved st) = Simple.userName st
      /\ Simple.userName (Simple.sendMessage_rejected st) = Simple.userName st
      /\ Simple.userName (fst (Simple.sendMessage st)) = Simple.userName st).
Proof.
  intros Hn Hm. split; [|split; [|split]].
  - intros st En Em S C T. cbn [IdentityAware.run].
    rewrite IdentityAwareFacts.step_Submit.
    destruct (IdentityAwareFacts.sendMessage_cases order st)
      as [[G _]|[(_ & _ & _ & m & V & _)|(_ & _ & _ & _ & E)]].
    + rewrite S, C, T in G. discriminate G.
    + rewrite En, Em in V.
      assert (schema_validate order name text = None) as V'
          by (apply schema_validate_None; auto).
      congruence.
    + rewrite E, IdentityAwareFacts.step_SendResolved.
      eexists. split; [rewrite Em; reflexivity|]. cbn. auto.
  - intros st En Em C. cbn [Simple.run].
    rewrite SimpleFacts.simple_step_Submit. unfold Simple.sendMessage.
    rewrite En, Em, C, !truthy_string_length.
    apply andb_true_iff in Hn as [Hn _]. apply andb_true_iff in Hm as [Hm _].
    apply Nat.leb_le in Hn, Hm. unfold NAME_MIN_LENGTH, MESSAGE_MIN_LENGTH in *.
    destruct (String.length (JS.trim text)) as [|k] eqn:Lt; [lia|].
    destruct (String.length (JS.trim name)) as [|j] eqn:Ln; [lia|].
    cbn [Nat.eqb negb andb]. rewrite SimpleFacts.simple_step_SendResolved.
    eexists. split; [reflexivity|]. cbn. auto.
  - intros st. repeat split.
    now destruct (IdentityAwareFacts.sendMessage_frame order st) as (_ & _ & -> & _).
  - intros st. repeat split. unfold Simple.sendMessage.
    now destruct (_ && _ && _).
Qed.

Lemma successful_submit_clears_message_only_witness :
  (exists st',
      IdentityAware.run DeclarationOrder
        (IdentityAware.mkState true [] "Alice" " hi " true None false (JS.Num 1))
        [IdentityAware.Submit; IdentityAware.SendResolved]
      = (st', [IdentityAware.SendMessage (JS.Num 1) "hi"])
      /\ IdentityAware.messageInput st' = ""
      /\ IdentityAware.userName st' = "Alice")
  /\ (exists st',
      Simple.run (Simple.mkState true [] "Alice" " hi " true)
        [Simple.Submit; Simple.SendResolved]
      = (st', [Simple.SendMessage "Alice" " hi "])
      /\ Simple.messageInput st' = ""
      /\ Simple.userName st' = "Alice").
Proof.
  destruct (successful_submit_clears_message_only DeclarationOrder "Alice" " hi "
              eq_refl eq_refl) as (HI & HS & _).
  split.
  - exact (HI (IdentityAware.mkState true [] "Alice" " hi " true None false (JS.Num 1))
              eq_refl eq_refl eq_refl eq_refl eq_refl).
  - exact (HS (Simple.mkState true [] "Alice" " hi " true) eq_refl eq_refl eq_refl).
Defined.

(** C9.  In the simple variant a submit that passes the guard invokes
    [SendMessage] with the trimmed user name and the raw [messageInput];
    when [messageInput] has leading or trailing whitespace the text sent is
    that untrimmed string and differs from the trimmed one. *)
Theorem simple_variant_sends_untrimmed_text (st : Simple.State) :
  JS.truthy_string (JS.trim (Simple.messageInput st)) = true ->
  JS.truthy_string (JS.trim (Simple.userName st)) = true ->
  Simple.connection st = true ->
  Simple.sendMessage st
  = (st, [Simple.SendMessage (JS.trim (Simple.userName st)) (Simple.messageInput st)])
  /\ (hasOuterWhiteSpace (Simple.messageInput st) = true ->
      forall name text,
        In (Simple.SendMessage name text) (snd (Simple.sendMessage st)) ->
        text = Simple.messageInput st /\ text <> JS.trim (Simple.messageInput st)).
Proof.
  intros Hm Hn Hc. unfold Simple.sendMessage. rewrite Hm, Hn, Hc. cbn [andb snd].
  split; [reflexivity|]. intros W name text [E|[]]. injection E as _ <-.
  split; [reflexivity|]. intros E. symmetry in E.
  now apply trim_changes_outer_whitespace in E.
Qed.

Lemma simple_variant_sends_untrimmed_text_witness :
  Simple.sendMessage (Simple.mkState true [] " Alice " "  hi  " true)
  = (Simple.mkState true [] " Alice " "  hi  " true,
     [Simple.SendMessage "Alice" "  hi  "])
  /\ "  hi  " <> JS.trim "  hi  ".
Proof.
  destruct (simple_variant_sends_untrimmed_text
              (Simple.mkState true [] " Alice " "  hi  " true)
              eq_refl eq_refl eq_refl) as [E W].
  split; [exact E|].
  exact (proj2 (W eq_refl "Alice" "  hi  " (or_introl eq_refl))).
Defined.

(** C7.  In the identity-aware variant, from any state whose [userId] is
    set (truthy), a close of the connection followed by a reconnect, with any
    events in between other than the settlement of a join, ends with
    [connected = true], the same [userId], and no [JoinChat] invocation. *)
Theorem reconnect_restores_connected_without_rejoining
    (order : NodeOrder) (st : IdentityAware.State)
    (during : list IdentityAware.Event) :
  JS.truthy (IdentityAware.userId st) = true ->
  forallb (fun e => negb (isJoinResolved e)) during = true ->
  let (st', calls) :=
    IdentityAware.run order st
      (IdentityAware.Closed :: during ++ [IdentityAware.Reconnected]) in
  IdentityAware.connected st' = true
  /\ IdentityAware.userId st' = IdentityAware.userId st
  /\ filter IdentityAware.isJoinChat calls = [].
Proof.
  intros T NJ.
  assert (forallb (fun e => negb (isJoinResolved e))
            (IdentityAware.Closed :: during ++ [IdentityAware.Reconnected]) = true) as NJ'.
  { cbn [forallb isJoinResolved negb andb]. rewrite forallb_app, NJ. reflexivity. }
  destruct (IdentityAwareTraces.run_no_join order st _ T NJ') as [HU HJ].
  change (IdentityAware.Closed :: during ++ [IdentityAware.Reconnected])
    with ((IdentityAware.Closed :: during) ++ [IdentityAware.Reconnected]) in *.
  rewrite IdentityAwareFacts.run_app in *.
  destruct (IdentityAware.run order st (IdentityAware.Closed :: during)) as [st1 c1].
  cbn [IdentityAware.run] in *.
  destruct (IdentityAware.step order st1 IdentityAware.Reconnected) as [st2 c2] eqn:E.
  cbn [fst snd] in *. rewrite app_nil_r in *.
  split; [|split; assumption].
  unfold IdentityAware.step in E. cbn [IdentityAware.handle] in E.
  injection E as <- _. reflexivity.
Qed.

Lemma reconnect_restores_connected_without_rejoining_witness :
  let (st', calls) :=
    IdentityAware.run DeclarationOrder
      (IdentityAware.mkState true [] "Alice" "" true None false (JS.Num 1))
      [IdentityAware.Closed; IdentityAware.NameChanged "Alicia";
       IdentityAware.Reconnected] in
  IdentityAware.connected st' = true
  /\ IdentityAware.userId st' = JS.Num 1
  /\ filter IdentityAware.isJoinChat calls = [].
Proof.
  exact (reconnect_restores_connected_without_rejoining DeclarationOrder
           (IdentityAware.mkState true [] "Alice" "" true None false (JS.Num 1))
           [IdentityAware.NameChanged "Alicia"] eq_refl eq_refl).
Defined.

(** The simple variant has no in-flight guard at all: from a state ready
    to send, two submits without a settlement in between invoke
    [SendMessage] twice. *)
Lemma simple_variant_double_submit_sends_twice :
  let st := Simple.mkState true [] "Alice" "hi" true in
  let calls := snd (Simple.run st [Simple.Submit; Simple.Submit]) in
  calls = [Simple.SendMessage "Alice" "hi"; Simple.SendMessage "Alice" "hi"]
  /\ ~ (List.length (filter Simple.isSendMessage calls) <= 1).
Proof.
  cbv zeta. split; [reflexivity|]. intros H. vm_compute in H. lia.
Qed.

(** C2.  In the identity-aware variant the in-flight guard reads
    [isSubmitting] from the render that created the handler.  From a render
    that is ready to send, a second submit handled before React has rendered
    again passes the guard like the first, although the first has raised the
    flag in the state and its call is still pending: [SendMessage] is invoked
    twice.  Only the handler of a render that shows the raised flag is
    stopped. *)
Theorem second_submit_from_the_same_render_sends_again
    (order : NodeOrder) (rendered : IdentityAware.State) :
  IdentityAware.isSubmitting rendered = false ->
  IdentityAware.connected rendered = true ->
  JS.truthy (IdentityAware.userId rendered) = true ->
  nameWithinBounds (IdentityAware.userName rendered) = true ->
  messageWithinBounds (IdentityAware.messageInput rendered) = true ->
  let call := IdentityAware.SendMessage (IdentityAware.userId rendered)
                (JS.trim (IdentityAware.messageInput rendered)) in
  let first := sendMessageFrom order rendered rendered in
  let second := sendMessageFrom order rendered (fst first) in
  snd first = [call]
  /\ IdentityAware.isSubmitting (fst first) = true
  /\ snd second = [call]
  /\ snd (runRendered order (rendered, rendered)
            [Handle IdentityAware.Submit; Handle IdentityAware.Submit])
     = [call; call]
  /\ sendMessageFrom order (fst first) (fst first) = (fst first, []).
Proof.
  intros S C T Vn Vm. cbv zeta.
  assert (forall st, snd (sendMessageFrom order rendered st)
                     = [IdentityAware.SendMessage (IdentityAware.userId rendered)
                          (JS.trim (IdentityAware.messageInput rendered))]) as H.
  { intros st. rewrite sendMessageFrom_calls. now rewrite S, C, T, Vn, Vm. }
  assert (forall st, IdentityAware.isSubmitting (fst (sendMessageFrom order rendered st))
                     = true) as F.
  { intros st. rewrite sendMessageFrom_isSubmitting, H. apply orb_true_r. }
  split; [apply H|]. split; [apply F|]. split; [apply H|]. split.
  - cbn [runRendered stepRendered].
    pose proof (H rendered) as H1.
    destruct (sendMessageFrom order rendered rendered) as [st1 c1]. cbn [snd] in H1.
    cbn [stepRendered]. pose proof (H st1) as H2.
    destruct (sendMessageFrom order rendered st1) as [st2 c2]. cbn [snd] in *.
    subst c1 c2. reflexivity.
  - unfold sendMessageFrom at 1. now rewrite F.
Qed.

Lemma second_submit_from_the_same_render_sends_again_witness :
  snd (runRendered DeclarationOrder
         (IdentityAware.mkState true [] "Alice" "hi" true None false (JS.Num 1),
          IdentityAware.mkState true [] "Alice" "hi" true None false (JS.Num 1))
         [Handle IdentityAware.Submit; Handle IdentityAware.Submit])
  = [IdentityAware.SendMessage (JS.Num 1) "hi"; IdentityAware.SendMessage (JS.Num 1) "hi"].
Proof.
  exact (proj1 (proj2 (proj2 (proj2
           (second_submit_from_the_same_render_sends_again DeclarationOrder
              (IdentityAware.mkState true [] "Alice" "hi" true None false (JS.Num 1))
              eq_refl eq_refl eq_refl eq_refl eq_refl))))).
Defined.

(** C3.  The id, which is also the React key of the message, is not unique
    in either variant: it is a clock reading, so two messages received
    within one millisecond share it in the simple variant, and the random
    draw the identity-aware variant adds to separate them does not when both
    sums round to the same Number. *)
Lemma received_messages_can_share_an_id :
  (let st := fst (Simple.run Simple.initialState
                    [Simple.ReceiveMessage "Alice" "hi" 1700000000000;
                     Simple.ReceiveMessage "Bob" "yo" 1700000000000]) in
   map Simple.id (Simple.messages st) = [1700000000000; 1700000000000]%Z
   /\ ~ NoDup (map Simple.id (Simple.messages st)))
  /\ (let st := fst (IdentityAware.run DeclarationOrder IdentityAware.initialState
                       [IdentityAware.ReceiveMessage "Alice" "hi" None (JS.Num 1)
                          1700000000000 (S754_finite false 4503599627370496 (-66));
                        IdentityAware.ReceiveMessage "Bob" "yo" None (JS.Num 2)
                          1700000000000 (S754_finite false 4503599627370496 (-67))]) in
      map IdentityAware.id (IdentityAware.messages st)
      = [JS.of_Z 1700000000000; JS.of_Z 1700000000000]
      /\ ~ NoDup (map IdentityAware.id (IdentityAware.messages st))).
Proof.
  cbv zeta. split; (split; [vm_compute; reflexivity|]).
  - intros H. vm_compute in H. inversion H as [|x l Hin _]. apply Hin. now left.
  - intros H. vm_compute in H. inversion H as [|x l Hin _]. apply Hin. now left.
Qed.

(** What holds of the log besides the ids.  In both variants a
    [ReceiveMessage] event appends one message at the end of the log, built
    from the payload (author and body; in the identity-aware variant also
    the optional timestamp and the optional author identifier), whose id is
    the clock reading at arrival (plus a random draw in the identity-aware
    variant); no step of either event loop shortens the log; over any run the
    log is the initial log followed by the received messages in arrival order
    (up to the authors a rename rewrites).  In the simple variant the new id
    differs from every id in the log whenever the clock reading is later than
    all of them. *)
Theorem received_messages_are_appended_in_arrival_order (order : NodeOrder) :
  (forall st u m t uid now random,
      IdentityAware.messages
        (fst (IdentityAware.step order st
                (IdentityAware.ReceiveMessage u m t uid now random)))
      = IdentityAware.messages st
        ++ [IdentityAware.mkMessage u m t uid (JS.add (JS.of_Z now) random)])
  /\ (forall st e,
      List.length (IdentityAware.messages st)
      <= List.length (IdentityAware.messages (fst (IdentityAware.step order st e))))
  /\ (forall st events,
      map payload (IdentityAware.messages (fst (IdentityAware.run order st events)))
      = map payload (IdentityAware.messages st)
        ++ map payload (flat_map receivedIdentityAware events))
  /\ (forall st u m now,
      Simple.messages (fst (Simple.step st (Simple.ReceiveMessage u m now)))
      = Simple.messages st ++ [Simple.mkMessage u m now])
  /\ (forall st e,
      List.length (Simple.messages st)
      <= List.length (Simple.messages (fst (Simple.step st e))))
  /\ (forall st events,
      Simple.messages (fst (Simple.run st events))
      = Simple.messages st ++ flat_map receivedSimple events)
  /\ (forall st u m now,
      (forall old, In old (Simple.messages st) -> (Simple.id old < now)%Z) ->
      NoDup (map Simple.id (Simple.messages st)) ->
      NoDup (map Simple.id
               (Simple.messages (fst (Simple.step st (Simple.ReceiveMessage u m now)))))).
Proof.
  split; [|split; [|split; [|split; [|split; [|split]]]]].
  - intros. reflexivity.
  - intros st e.
    pose proof (f_equal (@List.length _) (IdentityAwareTraces.step_payload order st e)) as H.
    rewrite length_app, !length_map in H. lia.
  - apply IdentityAwareTraces.run_payload.
  - intros. reflexivity.
  - intros st e. rewrite SimpleFacts.simple_step_messages, length_app. lia.
  - apply SimpleFacts.simple_run_messages.
  - intros st u m now Hlt ND. rewrite SimpleFacts.simple_step_messages.
    cbn [receivedSimple]. rewrite map_app. cbn [map Simple.id].
    apply NoDup_app; [exact ND | repeat constructor; intros [] |].
    intros x Hx [E|[]]. apply in_map_iff in Hx as (old & <- & Hold).
    specialize (Hlt old Hold). lia.
Qed.

(** C1.  The rename effect runs whenever [connection], [connected], [userId]
    or [userName] changes and only checks that [userId] is truthy: it invokes
    [UpdateUserName] with the unchanged name as soon as the join settles, and
    again when the connection comes back. *)
Theorem rename_is_invoked_without_a_name_change (order : NodeOrder) :
  let st := IdentityAware.mkState true [] "Alice" "" true None false JS.Null in
  IdentityAware.step order st (IdentityAware.JoinResolved (JS.Num 1))
  = (IdentityAware.setUserId (JS.Num 1) st,
     [IdentityAware.UpdateUserName (JS.Num 1) "Alice"])
  /\ snd (IdentityAware.run order IdentityAware.initialState
            [IdentityAware.Mounted; IdentityAware.StartResolved;
             IdentityAware.NameChanged "Alice";
             IdentityAware.JoinResolved (JS.Num 1)])
     = [IdentityAware.Start; IdentityAware.JoinChat "Alice";
        IdentityAware.UpdateUserName (JS.Num 1) "Alice"]
  /\ snd (IdentityAware.run order (IdentityAware.setUserId (JS.Num 1) st)
            [IdentityAware.Closed; IdentityAware.Reconnected])
     = [IdentityAware.UpdateUserName (JS.Num 1) "Alice"]
  /\ snd (IdentityAware.step order (IdentityAware.setUserId (JS.Num 1) st)
            (IdentityAware.NameChanged "Alice "))
     = [IdentityAware.UpdateUserName (JS.Num 1) "Alice"].
Proof. cbv zeta. repeat split; reflexivity. Qed.

(** C4.  The simple variant declares the schema but its [sendMessage] never
    runs it: a one-character name, shorter than the minimum of two, is sent. *)
Theorem simple_variant_sends_a_name_below_the_minimum :
  let st := Simple.mkState true [] "A" "hi" true in
  nameWithinBounds (Simple.userName st) = false
  /\ schema_validate DeclarationOrder (Simple.userName st) (Simple.messageInput st)
     = Some "userName must be at least 2 characters"
  /\ Simple.step st Simple.Submit = (st, [Simple.SendMessage "A" "hi"]).
Proof. cbv zeta. repeat split; reflexivity. Qed.

(** What C4 asks holds in the identity-aware variant: outside the bounds
    nothing is sent, and the only cell that changes is the error state. *)
Lemma identity_aware_variant_blocks_out_of_bounds_input
    (order : NodeOrder) (st : IdentityAware.State) :
  nameWithinBounds (IdentityAware.userName st) = false
  \/ messageWithinBounds (IdentityAware.messageInput st) = false ->
  snd (IdentityAware.step order st IdentityAware.Submit) = []
  /\ IdentityAware.isSubmitting (fst (IdentityAware.step order st IdentityAware.Submit))
     = IdentityAware.isSubmitting st.
Proof.
  intros H. rewrite IdentityAwareFacts.step_Submit.
  destruct (IdentityAwareFacts.sendMessage_cases order st)
    as [[_ E]|[(_ & _ & _ & m & _ & E)|(_ & _ & _ & V & _)]];
    try (rewrite E; cbn; auto).
  apply schema_validate_None in V as [Vn Vm]. destruct H; congruence.
Qed.

(** In the simple variant only an empty (after trimming) name or message, or
    a connection not yet built, blocks the submit. *)
Lemma simple_variant_blocks_only_empty_input (st : Simple.State) :
  snd (Simple.step st Simple.Submit) = [] <->
  String.length (JS.trim (Simple.messageInput st)) = 0
  \/ String.length (JS.trim (Simple.userName st)) = 0
  \/ Simple.connection st = false.
Proof.
  rewrite SimpleFacts.simple_step_Submit. unfold Simple.sendMessage.
  rewrite !truthy_string_length.
  destruct (String.length (JS.trim (Simple.messageInput st))) as [|k];
    destruct (String.length (JS.trim (Simple.userName st))) as [|j];
    destruct (Simple.connection st); cbn; split; auto; try discriminate.
  intros [H|[H|H]]; discriminate H.
Qed.

(** ** Further properties of the code *)

Lemma length_trimStart (s : string) :
  String.length (JS.trimStart s) <= String.length s.
Proof.
  induction s as [|c s IH]; cbn [JS.trimStart]; [lia|].
  destruct (JS.isWhiteSpace c); cbn [String.length]; lia.
Qed.

Lemma length_trimEnd (s : string) :
  String.length (JS.trimEnd s) <= String.length s.
Proof.
  induction s as [|c s IH]; cbn [JS.trimEnd]; [lia|].
  destruct (JS.trimEnd s); [destruct (JS.isWhiteSpace c)|];
    cbn [String.length] in *; lia.
Qed.

Lemma length_trim (s : string) : String.length (JS.trim s) <= String.length s.
Proof.
  unfold JS.trim.
  pose proof (length_trimEnd (JS.trimStart s)). pose proof (length_trimStart s). lia.
Qed.

Lemma trim_has_no_outer_whitespace (s : string) :
  hasOuterWhiteSpace (JS.trim s) = false.
Proof.
  unfold hasOuterWhiteSpace.
  pose proof (trimEnd_head _ (trimStart_head s)) as Hh.
  pose proof (trimEnd_last (JS.trimStart s)) as Hl.
  fold (JS.trim s) in Hh, Hl.
  destruct (JS.trim s) as [|c t]; [reflexivity|].
  rewrite Hh. cbn [orb]. destruct (lastChar (String c t)); auto.
Qed.

Lemma length_slice0 (n : nat) (s : string) :
  String.length (JS.slice0 n s) = Nat.min n (String.length s).
Proof.
  revert s. induction n as [|n IH]; intros [|c s]; cbn; auto.
Qed.

(** Within the caps the schema can only reject with one of three
    messages: the two maximum-length rules never fail. *)
Lemma schema_validate_within_caps (order : NodeOrder) (name text : string) :
  String.length name <= NAME_MAX_LENGTH ->
  String.length text <= MESSAGE_MAX_LENGTH ->
  In (schema_validate order name text)
     [None; Some "Name required"; Some "userName must be at least 2 characters";
      Some "Message required"].
Proof.
  intros Hn Hm.
  pose proof (length_trim name) as Ln. pose proof (length_trim text) as Lm.
  assert (In (Yup.validateString "userName" userNameSchema name)
             [None; Some "Name required";
              Some "userName must be at least 2 characters"]) as Vn.
  { unfold userNameSchema. rewrite validateString_chain. cbv zeta.
    destruct (String.length (JS.trim name) =? 0); [cbn; auto|].
    destruct (NAME_MIN_LENGTH <=? String.length (JS.trim name)); [|cbn; auto].
    destruct (String.length (JS.trim name) <=? NAME_MAX_LENGTH) eqn:E; [cbn; auto|].
    apply Nat.leb_gt in E. lia. }
  assert (In (Yup.validateString "messageInput" messageInputSchema text)
             [None; Some "Message required"]) as Vm.
  { unfold messageInputSchema. rewrite validateString_chain. cbv zeta.
    destruct (String.length (JS.trim text) =? 0) eqn:E0; [cbn; auto|].
    destruct (MESSAGE_MIN_LENGTH <=? String.length (JS.trim text)) eqn:E1.
    - destruct (String.length (JS.trim text) <=? MESSAGE_MAX_LENGTH) eqn:E;
        [cbn; auto|]. apply Nat.leb_gt in E. lia.
    - apply Nat.eqb_neq in E0. apply Nat.leb_gt in E1.
      unfold MESSAGE_MIN_LENGTH in E1. lia. }
  unfold schema_validate, schema_nodes.
  destruct order; cbn [rev app Yup.validateFields];
    destruct (Yup.validateString "userName" userNameSchema name) as [a|];
    destruct (Yup.validateString "messageInput" messageInputSchema text) as [b|];
    cbn in Vn, Vm |- *; intuition congruence.
Qed.

Module IdentityAwareInvariants.
Import IdentityAware IdentityAwareFacts IdentityAwareView.

Section WithNodeOrder.
Variable order : NodeOrder.

Lemma fst_step (st : State) (e : Event) :
  fst (step order st e) = fst (handle order st e).
Proof. unfold step. now destruct (handle order st e). Qed.

Lemma snd_step (st : State) (e : Event) :
  snd (step order st e)
  = snd (handle order st e) ++ effects st (fst (handle order st e)).
Proof. unfold step. now destruct (handle order st e). Qed.

Lemma step_withinCaps (st : State) (e : Event) :
  withinCaps st -> withinCaps (fst (step order st e)).
Proof.
  unfold withinCaps. intros [Hn Hm]. rewrite fst_step.
  destruct e; cbn [handle fst]; try (cbn; split; assumption).
  - cbn [setUserName userName messageInput]. rewrite length_slice0.
    split; [apply Nat.le_min_l | assumption].
  - cbn [setMessageInput userName messageInput]. rewrite length_slice0.
    split; [assumption | apply Nat.le_min_l].
  - destruct (sendMessage_frame order st) as (_ & _ & -> & -> & _). auto.
  - cbn. split; [assumption | lia].
Qed.

Lemma step_knownErrors (st : State) (e : Event) :
  withinCaps st ->
  In (validationErrors st) knownErrors ->
  In (validationErrors (fst (step order st e))) knownErrors.
Proof.
  intros [Hn Hm] HE. rewrite fst_step.
  destruct e; cbn [handle fst]; try exact HE.
  - pose proof (schema_validate_within_caps order _ _ Hn Hm) as HV.
    destruct (sendMessage_cases order st)
      as [[_ E]|[(_ & _ & _ & m & V & E)|(_ & _ & _ & _ & E)]]; rewrite E; cbn [fst].
    + exact HE.
    + rewrite V in HV. cbn in HV |- *. intuition congruence.
    + cbn. auto.
  - cbn. auto 6.
Qed.

Lemma run_invariant (st : State) (events : list Event) :
  withinCaps st ->
  In (validationErrors st) knownErrors ->
  withinCaps (fst (run order st events))
  /\ In (validationErrors (fst (run order st events))) knownErrors.
Proof.
  revert st. induction events as [|e events IH]; intros st HC HE; cbn [run].
  - auto.
  - pose proof (step_withinCaps st e HC) as HC1.
    pose proof (step_knownErrors st e HC HE) as HE1.
    destruct (step order st e) as [st1 c1]. cbn [fst] in *.
    specialize (IH st1 HC1 HE1).
    now destruct (run order st1 events) as [st2 c2].
Qed.

End WithNodeOrder.

End IdentityAwareInvariants.

(** X1.  In the identity-aware variant the inputs are truncated on every
    keystroke: from a state whose name has at most 20 and whose message has
    at most 500 characters, every run of events ends in such a state, and so
    does each of its prefixes. *)
Theorem input_caps_are_kept
    (order : NodeOrder) (st : IdentityAware.State)
    (events : list IdentityAware.Event) :
  withinCaps st ->
  forall n, withinCaps (fst (IdentityAware.run order st (firstn n events))).
Proof.
  intros HC n. revert st HC. generalize (firstn n events). clear events n.
  induction l as [|e l IH]; intros st HC; cbn [IdentityAware.run]; [exact HC|].
  pose proof (IdentityAwareInvariants.step_withinCaps order st e HC) as H1.
  destruct (IdentityAware.step order st e) as [st1 c1]. cbn [fst] in H1.
  specialize (IH st1 H1). now destruct (IdentityAware.run order st1 l).
Qed.

Lemma input_caps_are_kept_witness :
  withinCaps
    (fst (IdentityAware.run DeclarationOrder IdentityAware.initialState
            (firstn 2 [IdentityAware.NameChanged "A name of more than twenty characters";
                       IdentityAware.MessageChanged "hi";
                       IdentityAware.Submit]))).
Proof.
  apply (input_caps_are_kept DeclarationOrder IdentityAware.initialState).
  unfold withinCaps. cbn. lia.
Defined.

(** X2.  In the identity-aware variant, whatever happens after the page
    loads, the stored error is absent or one of four strings: "Name
    required", "userName must be at least 2 characters", "Message required"
    or "Send failed".  The two maximum-length messages of the schema are
    never stored, and a stored error is never the empty string, so the error
    line shows exactly what is stored. *)
Theorem only_four_errors_are_ever_shown
    (order : NodeOrder) (events : list IdentityAware.Event) :
  let st := fst (IdentityAware.run order IdentityAware.initialState events) in
  In (IdentityAware.validationErrors st) knownErrors
  /\ IdentityAwareView.errorLine st = IdentityAware.validationErrors st
  /\ IdentityAware.validationErrors st
     <> Some (Yup.message "userName" (Yup.Max NAME_MAX_LENGTH))
  /\ IdentityAware.validationErrors st
     <> Some (Yup.message "messageInput" (Yup.Max MESSAGE_MAX_LENGTH)).
Proof.
  cbv zeta.
  assert (withinCaps IdentityAware.initialState) as HC
      by (unfold withinCaps; cbn; lia).
  assert (In (IdentityAware.validationErrors IdentityAware.initialState) knownErrors)
    as HE by (cbn; auto).
  destruct (IdentityAwareInvariants.run_invariant order _ events HC HE) as [_ H].
  unfold IdentityAwareView.errorLine.
  destruct (IdentityAware.validationErrors
              (fst (IdentityAware.run order IdentityAware.initialState events)))
    as [m|]; cbn in H.
  - destruct H as [H|[H|[H|[H|[H|[]]]]]]; try discriminate H;
      injection H as <-; (split; [cbn; auto 6|]); (split; [reflexivity|]);
      split; intros E; vm_compute in E; discriminate E.
  - split; [auto|]. split; [reflexivity|]. split; discriminate.
Qed.

Lemma submit_calls
    (order : NodeOrder) (st : IdentityAware.State) :
  snd (IdentityAware.step order st IdentityAware.Submit)
  = if negb (IdentityAware.isSubmitting st) && IdentityAware.connected st
       && JS.truthy (IdentityAware.userId st)
       && nameWithinBounds (IdentityAware.userName st)
       && messageWithinBounds (IdentityAware.messageInput st)
    then [IdentityAware.SendMessage (IdentityAware.userId st)
            (JS.trim (IdentityAware.messageInput st))]
    else [].
Proof.
  rewrite IdentityAwareFacts.step_Submit.
  pose proof (schema_validate_None order (IdentityAware.userName st)
                (IdentityAware.messageInput st)) as HN.
  destruct (IdentityAwareFacts.sendMessage_cases order st)
    as [[G E]|[(S & C & T & m & V & E)|(S & C & T & V & E)]]; rewrite E; cbn [snd].
  - destruct (IdentityAware.isSubmitting st); [reflexivity|].
    destruct (IdentityAware.connected st); [|reflexivity].
    destruct (JS.truthy (IdentityAware.userId st)); [discriminate G | reflexivity].
  - rewrite S, C, T. cbn [negb andb].
    destruct (nameWithinBounds (IdentityAware.userName st));
      destruct (messageWithinBounds (IdentityAware.messageInput st)); try reflexivity.
    assert (Some m = None) as A by (rewrite <- V; apply HN; auto). discriminate A.
  - apply HN in V as [-> ->]. now rewrite S, C, T.
Qed.

(** X3.  In the identity-aware variant a submit invokes [SendMessage]
    exactly when [isSubmitting] is false, the connection is up, the identity is
    truthy and both fields are within their bounds; the call then carries the
    identity and the trimmed message, and in every other case nothing is
    called. *)
Theorem submit_sends_exactly_when_ready
    (order : NodeOrder) (st : IdentityAware.State) :
  snd (IdentityAware.step order st IdentityAware.Submit)
  = if negb (IdentityAware.isSubmitting st) && IdentityAware.connected st
       && JS.truthy (IdentityAware.userId st)
       && nameWithinBounds (IdentityAware.userName st)
       && messageWithinBounds (IdentityAware.messageInput st)
    then [IdentityAware.SendMessage (IdentityAware.userId st)
            (JS.trim (IdentityAware.messageInput st))]
    else [].
Proof. apply submit_calls. Qed.

(** X4.  In the identity-aware variant nothing but a submit invokes
    [SendMessage], and every call a submit invokes carries the identity and
    the trimmed message of the render whose handler made it: a truthy
    identifier and a text of 1 to 500 characters without leading or trailing
    whitespace, from a render that shows [connected] true, [isSubmitting]
    false and a name within its bounds. *)
Theorem every_send_carries_the_rendered_trimmed_text
    (order : NodeOrder) (rendered st : IdentityAware.State)
    (uid : JS.Id) (text : string) :
  In (IdentityAware.SendMessage uid text) (snd (sendMessageFrom order rendered st)) ->
  uid = IdentityAware.userId rendered /\ JS.truthy uid = true
  /\ text = JS.trim (IdentityAware.messageInput rendered)
  /\ 1 <= String.length text <= 500
  /\ hasOuterWhiteSpace text = false
  /\ IdentityAware.connected rendered = true
  /\ IdentityAware.isSubmitting rendered = false
  /\ nameWithinBounds (IdentityAware.userName rendered) = true
  /\ (forall st0 e,
      e <> IdentityAware.Submit ->
      filter IdentityAware.isSendMessage (snd (IdentityAware.step order st0 e)) = []).
Proof.
  intros H. rewrite sendMessageFrom_calls in H.
  destruct (IdentityAware.isSubmitting rendered); [destruct H|].
  destruct (IdentityAware.connected rendered); [|destruct H].
  destruct (JS.truthy (IdentityAware.userId rendered)) eqn:T; [|destruct H].
  destruct (nameWithinBounds (IdentityAware.userName rendered)); [|destruct H].
  destruct (messageWithinBounds (IdentityAware.messageInput rendered)) eqn:Vm;
    [|destruct H].
  destruct H as [H|[]]. injection H as <- <-.
  apply andb_true_iff in Vm as [V1 V2]. apply Nat.leb_le in V1, V2.
  unfold MESSAGE_MIN_LENGTH, MESSAGE_MAX_LENGTH in *.
  split; [reflexivity|]. split; [exact T|]. split; [reflexivity|].
  split; [lia|]. split; [apply trim_has_no_outer_whitespace|].
  split; [reflexivity|]. split; [reflexivity|]. split; [reflexivity|].
  intros st0 e NE.
  rewrite IdentityAwareInvariants.snd_step, filter_app,
    IdentityAwareFacts.effects_no_send, app_nil_r.
  destruct e; try reflexivity. congruence.
Qed.

Lemma every_send_carries_the_rendered_trimmed_text_witness :
  JS.truthy (JS.Num 7) = true
  /\ "hello" = JS.trim "  hello "
  /\ 1 <= String.length "hello" <= 500.
Proof.
  destruct (every_send_carries_the_rendered_trimmed_text DeclarationOrder
              (IdentityAware.mkState true [] "Alice" "  hello " true None false (JS.Num 7))
              (IdentityAware.mkState true [] "Alice" "typed since" true None true (JS.Num 7))
              (JS.Num 7) "hello" (or_introl eq_refl))
    as (_ & T & E & L & _).
  exact (conj T (conj E L)).
Defined.

(** X5.  In the identity-aware variant a rejected send stores the error
    "Send failed", lowers [isSubmitting] and leaves both inputs as they were,
    so that a second submit repeats the same call. *)
Theorem failed_send_keeps_the_input_for_a_retry
    (order : NodeOrder) (st : IdentityAware.State) :
  IdentityAware.isSubmitting st = false ->
  IdentityAware.connected st = true ->
  JS.truthy (IdentityAware.userId st) = true ->
  nameWithinBounds (IdentityAware.userName st) = true ->
  messageWithinBounds (IdentityAware.messageInput st) = true ->
  let call := IdentityAware.SendMessage (IdentityAware.userId st)
                (JS.trim (IdentityAware.messageInput st)) in
  exists st1,
    IdentityAware.run order st [IdentityAware.Submit; IdentityAware.SendRejected]
    = (st1, [call])
    /\ IdentityAware.validationErrors st1 = Some "Send failed"
    /\ IdentityAware.isSubmitting st1 = false
    /\ IdentityAware.messageInput st1 = IdentityAware.messageInput st
    /\ IdentityAware.userName st1 = IdentityAware.userName st
    /\ snd (IdentityAware.step order st1 IdentityAware.Submit) = [call].
Proof.
  intros S C T Vn Vm call.
  pose proof (submit_calls order st) as H1.
  rewrite S, C, T, Vn, Vm in H1. cbn [negb andb] in H1.
  cbn [IdentityAware.run].
  pose proof (IdentityAwareFacts.sendMessage_frame order st)
    as (F1 & F2 & F3 & F4 & F5 & F6).
  rewrite IdentityAwareFacts.step_Submit in *.
  destruct (IdentityAware.sendMessage order st) as [st0 c0]. cbn [fst snd] in *.
  rewrite IdentityAwareFacts.step_SendRejected. subst c0.
  exists (IdentityAware.sendMessage_rejected st0).
  split; [reflexivity|]. split; [reflexivity|]. split; [reflexivity|].
  split; [exact F4|]. split; [exact F3|].
  rewrite (submit_calls order
             (IdentityAware.sendMessage_rejected st0)).
  unfold IdentityAware.sendMessage_rejected.
  cbn [IdentityAware.setIsSubmitting IdentityAware.setValidationErrors
       IdentityAware.isSubmitting IdentityAware.connected IdentityAware.userId
       IdentityAware.userName IdentityAware.messageInput].
  rewrite F3, F4, F5, F6, C, T, Vn, Vm. reflexivity.
Qed.

Lemma failed_send_keeps_the_input_for_a_retry_witness :
  exists st1,
    IdentityAware.run DeclarationOrder
      (IdentityAware.mkState true [] "Alice" " hi " true None false (JS.Num 1))
      [IdentityAware.Submit; IdentityAware.SendRejected]
    = (st1, [IdentityAware.SendMessage (JS.Num 1) "hi"])
    /\ IdentityAware.validationErrors st1 = Some "Send failed"
    /\ IdentityAware.isSubmitting st1 = false
    /\ IdentityAware.messageInput st1 = " hi "
    /\ IdentityAware.userName st1 = "Alice"
    /\ snd (IdentityAware.step DeclarationOrder st1 IdentityAware.Submit)
       = [IdentityAware.SendMessage (JS.Num 1) "hi"].
Proof.
  exact (failed_send_keeps_the_input_for_a_retry DeclarationOrder
           (IdentityAware.mkState true [] "Alice" " hi " true None false (JS.Num 1))
           eq_refl eq_refl eq_refl eq_refl eq_refl).
Defined.

Lemma run_userId_without_join
    (order : NodeOrder) (st : IdentityAware.State)
    (events : list IdentityAware.Event) :
  forallb (fun e => negb (isJoinResolved e)) events = true ->
  IdentityAware.userId (fst (IdentityAware.run order st events))
  = IdentityAware.userId st.
Proof.
  revert st. induction events as [|e events IH]; intros st NJ; [reflexivity|].
  cbn [forallb] in NJ. apply andb_true_iff in NJ as [NJ1 NJ2].
  apply negb_true_iff in NJ1. cbn [IdentityAware.run].
  pose proof (IdentityAwareTraces.step_userId order st e NJ1) as HU.
  destruct (IdentityAware.step order st e) as [st1 c1]. cbn [fst] in HU.
  specialize (IH st1 NJ2). destruct (IdentityAware.run order st1 events).
  cbn [fst] in *. congruence.
Qed.

(** X6.  In the identity-aware variant a sent message is not added to the
    log by the sender: after a submit and its settlement the log is what it
    was.  The message enters the log when the hub delivers it, as the last
    entry, and is shown as the user's own exactly when the delivered
    identifier is strictly equal to the session's [userId]; the author name
    plays no part. *)
Theorem sent_message_enters_the_log_only_when_delivered
    (order : NodeOrder) (st : IdentityAware.State)
    (u m : string) (t : option string) (uid : JS.Id) (now : Z) (random : JS.Number) :
  IdentityAware.messages
    (fst (IdentityAware.run order st [IdentityAware.Submit; IdentityAware.SendResolved]))
  = IdentityAware.messages st
  /\ IdentityAware.messages
       (fst (IdentityAware.run order st [IdentityAware.Submit; IdentityAware.SendRejected]))
     = IdentityAware.messages st
  /\ let st' := fst (IdentityAware.run order st
                        [IdentityAware.Submit; IdentityAware.SendResolved;
                         IdentityAware.ReceiveMessage u m t uid now random]) in
     exists msg,
       IdentityAware.messages st' = IdentityAware.messages st ++ [msg]
       /\ IdentityAware.user msg = u /\ IdentityAware.message msg = m
       /\ IdentityAwareView.isOwn st' msg = JS.strict_eq uid (IdentityAware.userId st).
Proof.
  cbn [IdentityAware.run]. rewrite IdentityAwareFacts.step_Submit.
  pose proof (IdentityAwareFacts.sendMessage_frame order st)
    as (F1 & F2 & F3 & F4 & F5 & F6).
  destruct (IdentityAware.sendMessage order st) as [st0 c0]. cbn [fst] in *.
  rewrite IdentityAwareFacts.step_SendResolved, IdentityAwareFacts.step_SendRejected.
  split; [exact F2|]. split; [exact F2|]. cbv zeta.
  destruct (IdentityAware.step order (IdentityAware.sendMessage_resolved st0)
              (IdentityAware.ReceiveMessage u m t uid now random)) as [st2 c2] eqn:E.
  unfold IdentityAware.step in E. cbn [IdentityAware.handle] in E.
  injection E as <- _. cbn [fst].
  eexists. split; [cbn; rewrite F2; reflexivity|].
  split; [reflexivity|]. split; [reflexivity|].
  unfold IdentityAwareView.isOwn. cbn. now rewrite F6.
Qed.

(** X7.  In the identity-aware variant, over any run in which no join
    settles, every message of the log stays at its position with the same
    body, timestamp, author identifier and id, and stays the user's own or
    not as it was: renames, typing, reconnections and sends never change
    which messages are shown as "(You)". *)
Theorem own_messages_stay_own
    (order : NodeOrder) (st : IdentityAware.State)
    (events : list IdentityAware.Event) (i : nat) (msg : IdentityAware.Message) :
  forallb (fun e => negb (isJoinResolved e)) events = true ->
  nth_error (IdentityAware.messages st) i = Some msg ->
  let st' := fst (IdentityAware.run order st events) in
  exists msg',
    nth_error (IdentityAware.messages st') i = Some msg'
    /\ payload msg' = payload msg
    /\ IdentityAwareView.isOwn st' msg' = IdentityAwareView.isOwn st msg.
Proof.
  intros NJ Hi. cbv zeta.
  pose proof (IdentityAwareTraces.run_payload order st events) as HP.
  pose proof (run_userId_without_join order st events NJ) as HU.
  pose proof (f_equal (fun l => nth_error l i) HP) as HN. cbv beta in HN.
  rewrite nth_error_app1 in HN
    by (rewrite length_map; apply nth_error_Some; congruence).
  rewrite !nth_error_map, Hi in HN. cbn [option_map] in HN.
  destruct (nth_error
              (IdentityAware.messages (fst (IdentityAware.run order st events))) i)
    as [msg'|]; [|discriminate HN].
  unfold payload in HN. injection HN as H1 H2 H3 H4.
  exists msg'. split; [reflexivity|]. split; [unfold payload; congruence|].
  unfold IdentityAwareView.isOwn. now rewrite HU, H3.
Qed.

Lemma own_messages_stay_own_witness :
  let st := IdentityAware.mkState true
              [IdentityAware.mkMessage "Alice" "hi" None (JS.Num 1) (JS.of_Z 5)]
              "Alice" "" true None false (JS.Num 1) in
  let st' := fst (IdentityAware.run DeclarationOrder st
                    [IdentityAware.UserNameUpdated "Alice" "Alicia" (JS.Num 1);
                     IdentityAware.NameChanged "Alicia"]) in
  exists msg',
    nth_error (IdentityAware.messages st') 0 = Some msg'
    /\ payload msg'
       = payload (IdentityAware.mkMessage "Alice" "hi" None (JS.Num 1) (JS.of_Z 5))
    /\ IdentityAwareView.isOwn st' msg' = true.
Proof.
  exact (own_messages_stay_own DeclarationOrder
           (IdentityAware.mkState true
              [IdentityAware.mkMessage "Alice" "hi" None (JS.Num 1) (JS.of_Z 5)]
              "Alice" "" true None false (JS.Num 1))
           [IdentityAware.UserNameUpdated "Alice" "Alicia" (JS.Num 1);
            IdentityAware.NameChanged "Alicia"]
           0 (IdentityAware.mkMessage "Alice" "hi" None (JS.Num 1) (JS.of_Z 5))
           eq_refl eq_refl).
Defined.

Module IdentityAwareLifecycle.
Import IdentityAware IdentityAwareFacts IdentityAwareView IdentityAwareInvariants.

Section WithNodeOrder.
Variable order : NodeOrder.

Lemma handle_no_start (st : State) (e : Event) :
  filter isStart (snd (handle order st e)) = [].
Proof.
  destruct e; try reflexivity. cbn [handle].
  destruct (sendMessage_cases order st)
    as [[_ E]|[(_ & _ & _ & m & _ & E)|(_ & _ & _ & _ & E)]];
    rewrite E; reflexivity.
Qed.

Lemma effects_start (prev next : State) :
  filter isStart (effects prev next)
  = if Bool.eqb (connection prev) (connection next) then []
    else if connection next then [Start] else [].
Proof.
  unfold effects, startConnection, joinChat, updateNameEffect, updateName.
  rewrite filter_app. destruct_conditions; reflexivity.
Qed.

Lemma step_connection (st : State) (e : Event) :
  connection st = true -> connection (fst (step order st e)) = true.
Proof.
  intros H. rewrite fst_step. destruct e; cbn [handle fst]; try exact H; try reflexivity.
  now destruct (sendMessage_frame order st) as (-> & _).
Qed.

Lemma step_start (st : State) (e : Event) :
  filter isStart (snd (step order st e))
  = if negb (connection st) && connection (fst (step order st e))
    then [Start] else [].
Proof.
  rewrite snd_step, filter_app, handle_no_start, effects_start, <- fst_step.
  cbn [app]. pose proof (step_connection st e) as M.
  destruct (connection st); [now rewrite M|].
  now destruct (connection (fst (step order st e))).
Qed.

Lemma run_start (st : State) (events : list Event) :
  List.length (filter isStart (snd (run order st events))) <= 1
  /\ (connection st = true -> filter isStart (snd (run order st events)) = []).
Proof.
  revert st. induction events as [|e events IH]; intros st; cbn [run].
  - cbn. auto.
  - pose proof (step_start st e) as HS. pose proof (step_connection st e) as HM.
    destruct (step order st e) as [st1 c1]. cbn [fst snd] in *.
    destruct (IH st1) as [IH1 IH2].
    destruct (run order st1 events) as [st2 c2]. cbn [fst snd] in *.
    rewrite filter_app, length_app, HS.
    destruct (connection st); cbn [negb andb].
    + cbn. split; [exact IH1|]. intros _. now apply IH2, HM.
    + split; [|discriminate].
      destruct (connection st1); cbn; [rewrite IH2 by reflexivity; cbn; lia | exact IH1].
Qed.

Lemma step_connected (st : State) (e : Event) :
  connected (fst (step order st e))
  = match connectionEvent e with Some v => v | None => connected st end.
Proof.
  rewrite fst_step. destruct e; cbn [handle fst connectionEvent]; try reflexivity.
  now destruct (sendMessage_frame order st) as (_ & _ & _ & _ & -> & _).
Qed.

Lemma run_connected (st : State) (events : list Event) :
  connected (fst (run order st events))
  = lastConnected connectionEvent events (connected st).
Proof.
  revert st. induction events as [|e events IH]; intros st; [reflexivity|].
  cbn [run]. unfold lastConnected. cbn [fold_left].
  pose proof (step_connected st e) as H.
  destruct (step order st e) as [st1 c1]. cbn [fst] in H.
  specialize (IH st1). destruct (run order st1 events). cbn [fst] in *.
  now rewrite IH, H.
Qed.

End WithNodeOrder.

End IdentityAwareLifecycle.

Module SimpleLifecycle.
Import Simple SimpleView.

Lemma simple_fst_step (st : State) (e : Event) :
  fst (step st e) = fst (handle st e).
Proof. unfold step. now destruct (handle st e). Qed.

Lemma simple_snd_step (st : State) (e : Event) :
  snd (step st e) = snd (handle st e) ++ effects st (fst (handle st e)).
Proof. unfold step. now destruct (handle st e). Qed.

Lemma simple_sendMessage_state (st : State) : fst (sendMessage st) = st.
Proof. unfold sendMessage. now destruct (_ && _ && _). Qed.

Lemma simple_handle_no_start (st : State) (e : Event) :
  filter isStart (snd (handle st e)) = [].
Proof.
  destruct e; try reflexivity. cbn [handle]. unfold sendMessage.
  now destruct (_ && _ && _).
Qed.

Lemma simple_step_connection (st : State) (e : Event) :
  connection st = true -> connection (fst (step st e)) = true.
Proof.
  intros H. rewrite simple_fst_step.
  destruct e; cbn [handle fst]; try exact H; try reflexivity.
  now rewrite simple_sendMessage_state.
Qed.

Lemma simple_step_start (st : State) (e : Event) :
  filter isStart (snd (step st e))
  = if negb (connection st) && connection (fst (step st e)) then [Start] else [].
Proof.
  rewrite simple_snd_step, filter_app, simple_handle_no_start, <- simple_fst_step.
  cbn [app]. unfold effects, startConnection.
  pose proof (simple_step_connection st e) as M.
  destruct (connection st); [now rewrite M|].
  now destruct (connection (fst (step st e))).
Qed.

Lemma simple_run_start (st : State) (events : list Event) :
  List.length (filter isStart (snd (run st events))) <= 1
  /\ (connection st = true -> filter isStart (snd (run st events)) = []).
Proof.
  revert st. induction events as [|e events IH]; intros st; cbn [run].
  - cbn. auto.
  - pose proof (simple_step_start st e) as HS.
    pose proof (simple_step_connection st e) as HM.
    destruct (step st e) as [st1 c1]. cbn [fst snd] in *.
    destruct (IH st1) as [IH1 IH2].
    destruct (run st1 events) as [st2 c2]. cbn [fst snd] in *.
    rewrite filter_app, length_app, HS.
    destruct (connection st); cbn [negb andb].
    + cbn. split; [exact IH1|]. intros _. now apply IH2, HM.
    + split; [|discriminate].
      destruct (connection st1); cbn; [rewrite IH2 by reflexivity; cbn; lia | exact IH1].
Qed.

Lemma simple_step_connected (st : State) (e : Event) :
  connected (fst (step st e))
  = match connectionEvent e with Some v => v | None => connected st end.
Proof.
  rewrite simple_fst_step. destruct e; cbn [handle fst connectionEvent]; try reflexivity.
  now rewrite simple_sendMessage_state.
Qed.

Lemma simple_run_connected (st : State) (events : list Event) :
  connected (fst (run st events))
  = lastConnected connectionEvent events (connected st).
Proof.
  revert st. induction events as [|e events IH]; intros st; [reflexivity|].
  cbn [run]. unfold lastConnected. cbn [fold_left].
  pose proof (simple_step_connected st e) as H.
  destruct (step st e) as [st1 c1]. cbn [fst] in H.
  specialize (IH st1). destruct (run st1 events). cbn [fst] in *.
  now rewrite IH, H.
Qed.

End SimpleLifecycle.

(** X8.  In both variants [connection.start()] is called at most once over
    any run of events, and never again once the connection object exists: a
    start that failed is not retried by the component. *)
Theorem the_connection_is_started_at_most_once (order : NodeOrder) :
  (forall st events,
      List.length (filter IdentityAwareView.isStart
                     (snd (IdentityAware.run order st events))) <= 1
      /\ (IdentityAware.connection st = true ->
          filter IdentityAwareView.isStart (snd (IdentityAware.run order st events)) = []))
  /\ (forall st events,
      List.length (filter SimpleView.isStart (snd (Simple.run st events))) <= 1
      /\ (Simple.connection st = true ->
          filter SimpleView.isStart (snd (Simple.run st events)) = [])).
Proof.
  split.
  - apply IdentityAwareLifecycle.run_start.
  - apply SimpleLifecycle.simple_run_start.
Qed.

(** X9.  In both variants the [connected] flag, which drives the status
    badge, is after any run of events the value stored by the last lifecycle
    callback in it ([true] for a resolved start or a reconnect, [false] for a
    rejected start or a close), and the initial value when the run has none:
    no other handler touches it. *)
Theorem connected_follows_the_last_lifecycle_event (order : NodeOrder) :
  (forall st events,
      IdentityAware.connected (fst (IdentityAware.run order st events))
      = lastConnected IdentityAwareView.connectionEvent events
          (IdentityAware.connected st))
  /\ (forall st events,
      Simple.connected (fst (Simple.run st events))
      = lastConnected SimpleView.connectionEvent events (Simple.connected st)).
Proof.
  split.
  - apply IdentityAwareLifecycle.run_connected.
  - apply SimpleLifecycle.simple_run_connected.
Qed.

Module IdentityAwareJoin.
Import IdentityAware IdentityAwareFacts IdentityAwareView IdentityAwareInvariants.

Lemma joinChat_In (st : State) (name : string) :
  In (JoinChat name) (joinChat st) ->
  name = JS.trim (userName st) /\ JS.truthy_string name = true
  /\ connected st = true /\ JS.truthy (userId st) = false.
Proof.
  unfold joinChat.
  destruct (connection st); destruct (connected st);
    destruct (JS.truthy_string (JS.trim (userName st))) eqn:N;
    destruct (JS.truthy (userId st)); cbn;
    try (intros F; exact (False_ind _ F)).
  intros [H|[]]. injection H as <-. auto.
Qed.

Lemma effects_In_join (prev next : State) (name : string) :
  In (JoinChat name) (effects prev next) ->
  In (JoinChat name) (joinChat next) /\ deps_eqb prev next = false.
Proof.
  unfold effects. intros H. apply in_app_or in H as [H|H].
  - destruct (Bool.eqb _ _); [destruct H|]. unfold startConnection in H.
    destruct (connection next); [destruct H as [H|[]]; discriminate H | destruct H].
  - destruct (deps_eqb prev next); [destruct H|]. split; [|reflexivity].
    apply in_app_or in H as [H|H]; [exact H|].
    unfold updateNameEffect, updateName in H.
    destruct (JS.truthy (userId next)); [|destruct H].
    destruct (_ && _ && _ && _); [destruct H as [H|[]]; discriminate H | destruct H].
Qed.

End IdentityAwareJoin.

(** X10.  In the identity-aware variant, as long as no identity is held
    (falsy [userId]) and a name is typed, a close followed by a reconnect
    invokes [JoinChat] again with the trimmed name, whether or not an earlier
    join is still pending; the rejection of a join by itself invokes
    nothing. *)
Theorem join_is_repeated_on_reconnect
    (order : NodeOrder) (st : IdentityAware.State) :
  IdentityAware.connection st = true ->
  JS.truthy_string (JS.trim (IdentityAware.userName st)) = true ->
  JS.truthy (IdentityAware.userId st) = false ->
  snd (IdentityAware.run order st [IdentityAware.Closed; IdentityAware.Reconnected])
  = [IdentityAware.JoinChat (JS.trim (IdentityAware.userName st))]
  /\ IdentityAware.step order st IdentityAware.JoinRejected = (st, []).
Proof.
  intros Hc Hn Hu. split.
  - destruct st as [c ms n mi cd ve s u].
    cbn [IdentityAware.connection IdentityAware.userName IdentityAware.userId]
      in Hc, Hn, Hu. subst c.
    cbn [IdentityAware.run]. unfold IdentityAware.step. cbn [IdentityAware.handle].
    unfold IdentityAware.effects, IdentityAware.deps_eqb, IdentityAware.joinChat,
      IdentityAware.updateNameEffect, IdentityAware.updateName,
      IdentityAware.setConnected.
    cbn [IdentityAware.connection IdentityAware.connected IdentityAware.userName
         IdentityAware.userId IdentityAware.messages IdentityAware.messageInput
         IdentityAware.validationErrors IdentityAware.isSubmitting snd].
    rewrite String.eqb_refl, IdentityAwareFacts.strict_eq_refl, Hn, Hu.
    destruct cd; reflexivity.
  - unfold IdentityAware.step. cbn [IdentityAware.handle].
    now rewrite IdentityAwareFacts.effects_same_deps.
Qed.

Lemma join_is_repeated_on_reconnect_witness :
  snd (IdentityAware.run DeclarationOrder
         (IdentityAware.mkState true [] " Alice" "" true None false JS.Null)
         [IdentityAware.Closed; IdentityAware.Reconnected])
  = [IdentityAware.JoinChat "Alice"].
Proof.
  exact (proj1 (join_is_repeated_on_reconnect DeclarationOrder
                  (IdentityAware.mkState true [] " Alice" "" true None false JS.Null)
                  eq_refl eq_refl eq_refl)).
Defined.

(** X11.  In the identity-aware variant, while connected and without an
    identity, every edit of the name field that changes the stored name to
    one that is not blank invokes [JoinChat] with the new trimmed name: a
    name typed one character at a time is joined once per keystroke. *)
Theorem every_name_edit_joins_again
    (order : NodeOrder) (st : IdentityAware.State) (value : string) :
  IdentityAware.connection st = true ->
  IdentityAware.connected st = true ->
  JS.truthy (IdentityAware.userId st) = false ->
  JS.truthy_string (JS.trim (JS.slice0 NAME_MAX_LENGTH value)) = true ->
  JS.slice0 NAME_MAX_LENGTH value <> IdentityAware.userName st ->
  IdentityAware.step order st (IdentityAware.NameChanged value)
  = (IdentityAware.setUserName (JS.slice0 NAME_MAX_LENGTH value) st,
     [IdentityAware.JoinChat (JS.trim (JS.slice0 NAME_MAX_LENGTH value))]).
Proof.
  intros Hc Hd Hu Hn Hv.
  unfold IdentityAware.step. cbn [IdentityAware.handle app]. f_equal.
  unfold IdentityAware.effects, IdentityAware.deps_eqb, IdentityAware.joinChat,
    IdentityAware.updateNameEffect, IdentityAware.updateName.
  destruct st as [c ms n mi cd ve s u].
  cbn [IdentityAware.connection IdentityAware.connected IdentityAware.userName
       IdentityAware.userId] in Hc, Hd, Hu, Hv. subst c cd.
  unfold IdentityAware.setUserName.
  cbn [IdentityAware.connection IdentityAware.connected IdentityAware.userName
       IdentityAware.userId IdentityAware.messages IdentityAware.messageInput
       IdentityAware.validationErrors IdentityAware.isSubmitting].
  rewrite Hn, Hu. cbn [Bool.eqb andb negb app].
  destruct (String.eqb n (JS.slice0 NAME_MAX_LENGTH value)) eqn:E.
  - apply String.eqb_eq in E. congruence.
  - reflexivity.
Qed.

Lemma every_name_edit_joins_again_witness :
  snd (IdentityAware.run DeclarationOrder
         (IdentityAware.mkState true [] "" "" true None false JS.Null)
         [IdentityAware.NameChanged "A"])
  = [IdentityAware.JoinChat "A"]
  /\ IdentityAware.step DeclarationOrder
       (IdentityAware.mkState true [] "A" "" true None false JS.Null)
       (IdentityAware.NameChanged "Al")
     = (IdentityAware.mkState true [] "Al" "" true None false JS.Null,
        [IdentityAware.JoinChat "Al"]).
Proof.
  split; [reflexivity|].
  refine (every_name_edit_joins_again DeclarationOrder
            (IdentityAware.mkState true [] "A" "" true None false JS.Null)
            "Al" eq_refl eq_refl eq_refl eq_refl _).
  discriminate.
Defined.

(** X12.  In the identity-aware variant every [JoinChat] that any step
    invokes carries the trimmed name of the state the step leaves, which is
    not empty and no longer than the stored name, and is made only while
    connected, without a truthy identity, and after a change of the effect's
    dependencies. *)
Theorem every_join_carries_a_nonblank_trimmed_name
    (order : NodeOrder) (st : IdentityAware.State) (e : IdentityAware.Event)
    (name : string) :
  In (IdentityAware.JoinChat name) (snd (IdentityAware.step order st e)) ->
  let st' := fst (IdentityAware.step order st e) in
  name = JS.trim (IdentityAware.userName st')
  /\ 1 <= String.length name <= String.length (IdentityAware.userName st')
  /\ IdentityAware.connected st' = true
  /\ JS.truthy (IdentityAware.userId st') = false
  /\ IdentityAware.deps_eqb st st' = false.
Proof.
  intros H. cbv zeta. rewrite IdentityAwareInvariants.snd_step in H.
  rewrite IdentityAwareInvariants.fst_step.
  apply in_app_or in H as [H|H].
  - exfalso.
    assert (In (IdentityAware.JoinChat name)
               (filter IdentityAware.isJoinChat (snd (IdentityAware.handle order st e))))
      as F by (apply filter_In; split; [exact H | reflexivity]).
    now rewrite IdentityAwareTraces.handle_no_join in F.
  - apply IdentityAwareJoin.effects_In_join in H as [H D].
    apply IdentityAwareJoin.joinChat_In in H as (-> & N & C & U).
    repeat (split; [first [reflexivity | assumption]|]); try assumption.
    split; [|split; [|split]]; try assumption.
    rewrite truthy_string_length in N.
    pose proof (length_trim
                  (IdentityAware.userName (fst (IdentityAware.handle order st e)))).
    destruct (String.length
                (JS.trim (IdentityAware.userName (fst (IdentityAware.handle order st e)))));
      [discriminate N | lia].
Qed.

Lemma every_join_carries_a_nonblank_trimmed_name_witness :
  "Alice" = JS.trim " Alice " /\ 1 <= String.length "Alice" <= String.length " Alice ".
Proof.
  destruct (every_join_carries_a_nonblank_trimmed_name DeclarationOrder
              (IdentityAware.mkState true [] "" "" true None false JS.Null)
              (IdentityAware.NameChanged " Alice ") "Alice" (or_introl eq_refl))
    as (E & L & _).
  exact (conj E L).
Defined.

(** X13.  In the identity-aware variant every [UpdateUserName] that any
    step invokes carries the truthy identity and the non-empty trimmed name
    of the state the step leaves, and is made only while connected. *)
Theorem every_rename_carries_the_identity_and_trimmed_name
    (order : NodeOrder) (st : IdentityAware.State) (e : IdentityAware.Event)
    (uid : JS.Id) (newName : string) :
  In (IdentityAware.UpdateUserName uid newName) (snd (IdentityAware.step order st e)) ->
  uid = IdentityAware.userId (fst (IdentityAware.step order st e))
  /\ JS.truthy uid = true
  /\ newName = JS.trim (IdentityAware.userName (fst (IdentityAware.step order st e)))
  /\ JS.truthy_string newName = true
  /\ IdentityAware.connected (fst (IdentityAware.step order st e)) = true.
Proof. apply IdentityAwareTraces.step_rename_calls. Qed.

Lemma every_rename_carries_the_identity_and_trimmed_name_witness :
  JS.truthy (JS.Num 1) = true /\ "Alicia" = JS.trim "Alicia ".
Proof.
  destruct (every_rename_carries_the_identity_and_trimmed_name DeclarationOrder
              (IdentityAware.mkState true [] "Alice" "" true None false (JS.Num 1))
              (IdentityAware.NameChanged "Alicia ") (JS.Num 1) "Alicia"
              (or_introl eq_refl))
    as (_ & T & E & _).
  exact (conj T E).
Defined.

(** X14.  In the identity-aware variant an identifier that is falsy
    ([undefined], [null] or [0]) counts as no identity: with it a submit
    sends nothing, and when a join settles with it (and it differs from the
    stored one) the join effect runs again at once and invokes [JoinChat]
    once more. *)
Theorem falsy_identifier_counts_as_no_identity
    (order : NodeOrder) (st : IdentityAware.State) (v : JS.Id) :
  JS.truthy v = false ->
  snd (IdentityAware.step order (IdentityAware.setUserId v st) IdentityAware.Submit) = []
  /\ (IdentityAware.connection st = true ->
      IdentityAware.connected st = true ->
      JS.truthy_string (JS.trim (IdentityAware.userName st)) = true ->
      JS.strict_eq (IdentityAware.userId st) v = false ->
      IdentityAware.step order st (IdentityAware.JoinResolved v)
      = (IdentityAware.setUserId v st,
         [IdentityAware.JoinChat (JS.trim (IdentityAware.userName st))])).
Proof.
  intros Hv. split.
  - rewrite submit_calls. cbn [IdentityAware.setUserId
      IdentityAware.userId]. rewrite Hv. now rewrite !andb_false_r.
  - intros Hc Hd Hn Hs.
    unfold IdentityAware.step. cbn [IdentityAware.handle app]. f_equal.
    unfold IdentityAware.effects, IdentityAware.deps_eqb, IdentityAware.joinChat,
      IdentityAware.updateNameEffect, IdentityAware.updateName,
      IdentityAware.setUserId.
    cbn [IdentityAware.connection IdentityAware.connected IdentityAware.userName
         IdentityAware.userId].
    now rewrite !Bool.eqb_reflx, String.eqb_refl, Hs, Hc, Hd, Hn, Hv.
Qed.

Lemma falsy_identifier_counts_as_no_identity_witness :
  IdentityAware.step DeclarationOrder
    (IdentityAware.mkState true [] "Alice" "" true None false JS.Null)
    (IdentityAware.JoinResolved (JS.Num 0))
  = (IdentityAware.mkState true [] "Alice" "" true None false (JS.Num 0),
     [IdentityAware.JoinChat "Alice"]).
Proof.
  exact (proj2 (falsy_identifier_counts_as_no_identity DeclarationOrder
                  (IdentityAware.mkState true [] "Alice" "" true None false JS.Null)
                  (JS.Num 0) eq_refl)
               eq_refl eq_refl eq_refl eq_refl).
Defined.

(** X15.  In the identity-aware variant, whenever the send button is
    disabled, pressing a key in the message field invokes nothing, Enter
    included; and a key other than Enter never reaches [sendMessage]. *)
Theorem disabled_button_means_enter_sends_nothing
    (order : NodeOrder) (st : IdentityAware.State) (key : string) :
  IdentityAwareView.sendDisabled st = true ->
  snd (IdentityAwareView.handleKeyPress key (IdentityAware.sendMessage order) st) = []
  /\ (key <> "Enter" ->
      IdentityAwareView.handleKeyPress key (IdentityAware.sendMessage order) st
      = (st, [])).
Proof.
  intros D. unfold IdentityAwareView.handleKeyPress.
  destruct (String.eqb key "Enter") eqn:K.
  - apply String.eqb_eq in K. split; [|congruence].
    rewrite <- IdentityAwareFacts.step_Submit, submit_calls.
    unfold IdentityAwareView.sendDisabled in D.
    unfold nameWithinBounds, messageWithinBounds, NAME_MIN_LENGTH, MESSAGE_MIN_LENGTH.
    rewrite !truthy_string_length in D.
    destruct (String.length (JS.trim (IdentityAware.userName st))) as [|[|j]];
      destruct (String.length (JS.trim (IdentityAware.messageInput st))) as [|k];
      destruct (IdentityAware.connected st);
      destruct (JS.truthy (IdentityAware.userId st));
      cbn in D |- *; try discriminate D; now rewrite ?andb_false_r.
  - split; reflexivity.
Qed.

Lemma disabled_button_means_enter_sends_nothing_witness :
  snd (IdentityAwareView.handleKeyPress "Enter"
         (IdentityAware.sendMessage DeclarationOrder)
         (IdentityAware.mkState true [] "Alice" "hi" false None false (JS.Num 1)))
  = [].
Proof.
  exact (proj1 (disabled_button_means_enter_sends_nothing DeclarationOrder
                  (IdentityAware.mkState true [] "Alice" "hi" false None false (JS.Num 1))
                  "Enter" eq_refl)).
Defined.

(** X16.  In the simple variant the Enter key is not held back by the
    connection state: with the connection object built, both fields not
    blank and [connected] false, the send button is disabled, yet Enter in
    the message field invokes [SendMessage] with the trimmed name and the
    raw text. *)
Theorem simple_variant_enter_ignores_the_connection_state (st : Simple.State) :
  Simple.connection st = true ->
  Simple.connected st = false ->
  JS.truthy_string (JS.trim (Simple.userName st)) = true ->
  JS.truthy_string (JS.trim (Simple.messageInput st)) = true ->
  SimpleView.sendDisabled st = true
  /\ SimpleView.handleKeyPress "Enter" Simple.sendMessage st
     = (st, [Simple.SendMessage (JS.trim (Simple.userName st)) (Simple.messageInput st)]).
Proof.
  intros Hc Hd Hn Hm. unfold SimpleView.sendDisabled, SimpleView.handleKeyPress,
    Simple.sendMessage.
  rewrite Hc, Hd, Hn, Hm. split; reflexivity.
Qed.

Lemma simple_variant_enter_ignores_the_connection_state_witness :
  SimpleView.sendDisabled (Simple.mkState true [] "Alice" "hi" false) = true
  /\ SimpleView.handleKeyPress "Enter" Simple.sendMessage
       (Simple.mkState true [] "Alice" "hi" false)
     = (Simple.mkState true [] "Alice" "hi" false, [Simple.SendMessage "Alice" "hi"]).
Proof.
  exact (simple_variant_enter_ignores_the_connection_state
           (Simple.mkState true [] "Alice" "hi" false)
           eq_refl eq_refl eq_refl eq_refl).
Defined.

Lemma startsWith_spec (s search : string) :
  startsWith s search = true <-> exists post, s = (search ++ post)%string.
Proof.
  revert s. induction search as [|c search IH]; intros s.
  - split; [intros _; now exists s | intros _; now destruct s].
  - destruct s as [|d s]; cbn [startsWith String.append].
    + split; [discriminate | intros [post H]; discriminate H].
    + rewrite andb_true_iff, IH. split.
      * intros [E [post ->]]. apply Ascii.eqb_eq in E. subst d. now exists post.
      * intros [post H]. injection H as <- ->. split; [apply Ascii.eqb_refl|].
        now exists post.
Qed.

Lemma includes_spec (s search : string) :
  includes s search = true <->
  exists pre post, s = (pre ++ search ++ post)%string.
Proof.
  split.
  - induction s as [|c s IH]; cbn [includes]; rewrite orb_true_iff.
    + intros [H|H]; [|discriminate H].
      apply startsWith_spec in H as [post ->]. now exists ""%string, post.
    + intros [H|H].
      * apply startsWith_spec in H as [post ->]. now exists ""%string, post.
      * destruct (IH H) as (pre & post & ->). now exists (String c pre), post.
  - intros (pre & post & ->). induction pre as [|c pre IH]; cbn [String.append].
    + assert (startsWith (search ++ post) search = true) as H
          by (apply startsWith_spec; now exists post).
      destruct (search ++ post)%string; cbn [includes]; now rewrite H.
    + cbn [includes]. rewrite IH. apply orb_true_r.
Qed.

(** X17.  The identity-aware variant connects to the deployed backend
    exactly when the page's hostname contains "azurecontainerapps.io"
    somewhere, and otherwise to the same local hub as the simple variant;
    either way the URL ends in "/chatHub". *)
Theorem hub_url_follows_the_hostname (hostname : string) :
  ((exists pre post, hostname = (pre ++ "azurecontainerapps.io" ++ post)%string) ->
   IdentityAwareView.hubUrl hostname
   = "https://sepehr-chatapp-backend.happyforest-d52b3acf.westeurope.azurecontainerapps.io/chatHub")
  /\ (~ (exists pre post, hostname = (pre ++ "azurecontainerapps.io" ++ post)%string) ->
      IdentityAwareView.hubUrl hostname = SimpleView.hubUrl)
  /\ exists base, IdentityAwareView.hubUrl hostname = (base ++ "/chatHub")%string.
Proof.
  unfold IdentityAwareView.hubUrl, IdentityAwareView.backendUrl.
  pose proof (includes_spec hostname "azurecontainerapps.io") as S.
  destruct (includes hostname "azurecontainerapps.io").
  - split; [reflexivity|]. split; [|eexists; reflexivity].
    intros N. exfalso. apply N, S. reflexivity.
  - split; [|split; [reflexivity | eexists; reflexivity]].
    intros H. apply S in H. discriminate H.
Qed.

(** X18.  In the simple variant a rejected send is only logged: after a
    submit and the rejection of its call every cell of the state is as it
    was (the message stays in the field, nothing is shown), and a further
    submit repeats the same call. *)
Theorem simple_variant_failed_send_changes_nothing (st : Simple.State) :
  fst (Simple.run st [Simple.Submit; Simple.SendRejected]) = st
  /\ snd (Simple.run st [Simple.Submit; Simple.SendRejected; Simple.Submit])
     = snd (Simple.sendMessage st) ++ snd (Simple.sendMessage st).
Proof.
  cbn [Simple.run]. rewrite SimpleFacts.simple_step_Submit.
  pose proof (SimpleLifecycle.simple_sendMessage_state st) as F.
  destruct (Simple.sendMessage st) as [st0 c0] eqn:E. cbn [fst snd] in *. subst st0.
  assert (Simple.step st Simple.SendRejected = (st, [])) as R.
  { unfold Simple.step. cbn [Simple.handle Simple.sendMessage_rejected].
    now rewrite SimpleFacts.effects_same_connection. }
  rewrite R. cbn [fst snd]. split; [reflexivity|].
  rewrite SimpleFacts.simple_step_Submit, E. cbn [fst snd app].
  now rewrite !app_nil_r.
Qed.

(** X19.  In the identity-aware variant [isSubmitting], which turns the
    button label into "Sending...", is raised by nothing but a submit that
    invokes [SendMessage]: a step that finds it false and leaves it true is a
    submit whose only call is that send. *)
Theorem sending_flag_is_raised_only_by_a_send
    (order : NodeOrder) (st : IdentityAware.State) (e : IdentityAware.Event) :
  IdentityAware.isSubmitting st = false ->
  IdentityAware.isSubmitting (fst (IdentityAware.step order st e)) = true ->
  e = IdentityAware.Submit
  /\ snd (IdentityAware.step order st e)
     = [IdentityAware.SendMessage (IdentityAware.userId st)
          (JS.trim (IdentityAware.messageInput st))].
Proof.
  intros S S'. rewrite IdentityAwareInvariants.fst_step in S'.
  destruct e; cbn [IdentityAware.handle fst] in S';
    try (cbn in S'; congruence).
  split; [reflexivity|]. rewrite IdentityAwareFacts.step_Submit.
  destruct (IdentityAwareFacts.sendMessage_cases order st)
    as [[_ E]|[(_ & _ & _ & m & _ & E)|(_ & _ & _ & _ & E)]];
    rewrite E in *; cbn in S' |- *; congruence.
Qed.

Lemma sending_flag_is_raised_only_by_a_send_witness :
  snd (IdentityAware.step DeclarationOrder
         (IdentityAware.mkState true [] "Alice" "hi" true None false (JS.Num 1))
         IdentityAware.Submit)
  = [IdentityAware.SendMessage (JS.Num 1) "hi"].
Proof.
  exact (proj2 (sending_flag_is_raised_only_by_a_send DeclarationOrder
                  (IdentityAware.mkState true [] "Alice" "hi" true None false (JS.Num 1))
                  IdentityAware.Submit eq_refl eq_refl)).
Defined.

(** X20.  In the identity-aware variant the stored error is written only
    by a submit and by the rejection of a send: over any run without those
    two events (typing, hub events, reconnections, a resolved send) the
    error shown stays exactly as it was. *)
Theorem stored_error_outlives_typing
    (order : NodeOrder) (st : IdentityAware.State)
    (events : list IdentityAware.Event) :
  Forall (fun e => e <> IdentityAware.Submit /\ e <> IdentityAware.SendRejected)
         events ->
  IdentityAware.validationErrors (fst (IdentityAware.run order st events))
  = IdentityAware.validationErrors st.
Proof.
  intros H. revert st. induction H as [|e events [N1 N2] _ IH]; intros st;
    [reflexivity|]. cbn [IdentityAware.run].
  assert (IdentityAware.validationErrors (fst (IdentityAware.step order st e))
          = IdentityAware.validationErrors st) as HS.
  { rewrite IdentityAwareInvariants.fst_step.
    destruct e; try reflexivity; congruence. }
  destruct (IdentityAware.step order st e) as [st1 c1]. cbn [fst] in HS.
  specialize (IH st1). destruct (IdentityAware.run order st1 events).
  cbn [fst] in *. congruence.
Qed.

Lemma stored_error_outlives_typing_witness :
  IdentityAware.validationErrors
    (fst (IdentityAware.run DeclarationOrder
            (IdentityAware.mkState true [] "Alice" "" true (Some "Message required")
               false (JS.Num 1))
            [IdentityAware.MessageChanged "hi"; IdentityAware.NameChanged "Alicia"]))
  = Some "Message required".
Proof.
  apply (stored_error_outlives_typing DeclarationOrder
           (IdentityAware.mkState true [] "Alice" "" true (Some "Message required")
              false (JS.Num 1))).
  repeat constructor; discriminate.
Defined.

(** X21.  In the simple variant a message is the user's own by name: one
    shown as own stays so after an edit of the name field exactly when the
    new name, trimmed, is the old one, trimmed; whitespace typed around the
    name changes nothing, any other edit turns the user's earlier messages
    into someone else's. *)
Theorem simple_variant_ownership_follows_the_typed_name
    (st : Simple.State) (msg : Simple.Message) (value : string) :
  SimpleView.isOwn st msg = true ->
  SimpleView.isOwn (fst (Simple.step st (Simple.NameChanged value))) msg
  = String.eqb (JS.trim (Simple.userName st)) (JS.trim value).
Proof.
  unfold SimpleView.isOwn. intros H. apply String.eqb_eq in H.
  rewrite SimpleLifecycle.simple_fst_step. cbn. now rewrite H.
Qed.

Lemma simple_variant_ownership_follows_the_typed_name_witness :
  SimpleView.isOwn
    (fst (Simple.step (Simple.mkState true [Simple.mkMessage "Al" "hi" 5] "Al" "" true)
            (Simple.NameChanged "Ali")))
    (Simple.mkMessage "Al" "hi" 5)
  = false.
Proof.
  exact (simple_variant_ownership_follows_the_typed_name
           (Simple.mkState true [Simple.mkMessage "Al" "hi" 5] "Al" "" true)
           (Simple.mkMessage "Al" "hi" 5) "Ali" eq_refl).
Defined.

(** X23.  Renames compose on the log as one expects of a rewrite by
    identifier: of two renames of the same identifier the later one wins,
    renames of different identifiers commute, and a rename is not
    remembered: a message delivered after it, even from the renamed
    identifier, is appended with the author name of its own payload. *)
Theorem renames_compose_by_identifier
    (o1 n1 o2 n2 : string) (u1 u2 : JS.Id) (log : list IdentityAware.Message) :
  IdentityAware.onUserNameUpdated o2 n2 u1 (IdentityAware.onUserNameUpdated o1 n1 u1 log)
  = IdentityAware.onUserNameUpdated o2 n2 u1 log
  /\ (u1 <> u2 ->
      IdentityAware.onUserNameUpdated o2 n2 u2
        (IdentityAware.onUserNameUpdated o1 n1 u1 log)
      = IdentityAware.onUserNameUpdated o1 n1 u1
          (IdentityAware.onUserNameUpdated o2 n2 u2 log))
  /\ (forall order st u m t now random,
      IdentityAware.messages
        (fst (IdentityAware.run order st
                [IdentityAware.UserNameUpdated o1 n1 u1;
                 IdentityAware.ReceiveMessage u m t u1 now random]))
      = IdentityAware.onUserNameUpdated o1 n1 u1 (IdentityAware.messages st)
        ++ [IdentityAware.mkMessage u m t u1 (JS.add (JS.of_Z now) random)]).
Proof.
  unfold IdentityAware.onUserNameUpdated. split; [|split].
  - rewrite map_map. apply map_ext. intros msg.
    destruct (JS.strict_eq (IdentityAware.m_userId msg) u1) eqn:E; cbn; now rewrite E.
  - intros NE. rewrite !map_map. apply map_ext. intros msg.
    destruct (JS.strict_eq (IdentityAware.m_userId msg) u1) eqn:E1;
      destruct (JS.strict_eq (IdentityAware.m_userId msg) u2) eqn:E2;
      cbn; rewrite ?E1, ?E2; try reflexivity.
    apply IdentityAwareFacts.strict_eq_true in E1, E2. congruence.
  - intros. reflexivity.
Qed.

Lemma slice0_prefix (n : nat) (s : string) :
  exists rest, s = (JS.slice0 n s ++ rest)%string.
Proof.
  revert s. induction n as [|n IH]; intros [|c s]; cbn.
  - now exists ""%string.
  - now exists (String c s).
  - now exists ""%string.
  - destruct (IH s) as [rest E]. exists rest. now rewrite <- E.
Qed.

Lemma slice0_all (n : nat) (s : string) :
  String.length s <= n -> JS.slice0 n s = s.
Proof.
  revert s. induction n as [|n IH]; intros [|c s] L; cbn in *;
    try reflexivity; [lia|]. f_equal. apply IH. lia.
Qed.

(** X24.  In the identity-aware variant what is typed is cut to the cap
    on every change: the stored name is the first 20 characters of the
    typed value and the stored message its first 500, and a value within the
    cap is stored as typed, whitespace included. *)
Theorem typed_values_are_cut_to_a_prefix
    (order : NodeOrder) (st : IdentityAware.State) (value : string) :
  let name := IdentityAware.userName
                (fst (IdentityAware.step order st (IdentityAware.NameChanged value))) in
  let text := IdentityAware.messageInput
                (fst (IdentityAware.step order st (IdentityAware.MessageChanged value))) in
  (exists rest, value = (name ++ rest)%string)
  /\ String.length name = Nat.min NAME_MAX_LENGTH (String.length value)
  /\ (String.length value <= NAME_MAX_LENGTH -> name = value)
  /\ (exists rest, value = (text ++ rest)%string)
  /\ String.length text = Nat.min MESSAGE_MAX_LENGTH (String.length value)
  /\ (String.length value <= MESSAGE_MAX_LENGTH -> text = value).
Proof.
  cbv zeta. rewrite !IdentityAwareInvariants.fst_step.
  cbn [IdentityAware.handle fst IdentityAware.setUserName IdentityAware.setMessageInput
       IdentityAware.userName IdentityAware.messageInput].
  repeat split; auto using slice0_prefix, length_slice0, slice0_all.
Qed.

Lemma schema_validate_name_only (order : NodeOrder) (name text : string) :
  messageWithinBounds text = true ->
  schema_validate order name text
  = Yup.validateString "userName" userNameSchema name.
Proof.
  intros H. apply validate_messageInput in H.
  unfold schema_validate, schema_nodes.
  destruct order; cbn [rev app Yup.validateFields]; rewrite H;
    now destruct (Yup.validateString "userName" userNameSchema name).
Qed.

Lemma schema_validate_message_only (order : NodeOrder) (name text : string) :
  nameWithinBounds name = true ->
  schema_validate order name text
  = Yup.validateString "messageInput" messageInputSchema text.
Proof.
  intros H. apply validate_userName in H.
  unfold schema_validate, schema_nodes.
  destruct order; cbn [rev app Yup.validateFields]; rewrite H;
    now destruct (Yup.validateString "messageInput" messageInputSchema text).
Qed.

(** X25.  In the identity-aware variant, from a state that is connected,
    has an identity and shows [isSubmitting] false, a submit with one field
    at fault sends nothing, changes no cell but the error, and stores: "Name
    required" for a blank name, "userName must be at least 2 characters" for
    a name of one character, "Message required" for a blank message. *)
Theorem each_invalid_field_has_its_error
    (order : NodeOrder) (st : IdentityAware.State) :
  IdentityAware.isSubmitting st = false ->
  IdentityAware.connected st = true ->
  JS.truthy (IdentityAware.userId st) = true ->
  (messageWithinBounds (IdentityAware.messageInput st) = true ->
   String.length (JS.trim (IdentityAware.userName st)) = 0 ->
   IdentityAware.step order st IdentityAware.Submit
   = (IdentityAware.setValidationErrors (Some "Name required") st, []))
  /\ (messageWithinBounds (IdentityAware.messageInput st) = true ->
      String.length (JS.trim (IdentityAware.userName st)) = 1 ->
      IdentityAware.step order st IdentityAware.Submit
      = (IdentityAware.setValidationErrors
           (Some "userName must be at least 2 characters") st, []))
  /\ (nameWithinBounds (IdentityAware.userName st) = true ->
      String.length (JS.trim (IdentityAware.messageInput st)) = 0 ->
      IdentityAware.step order st IdentityAware.Submit
      = (IdentityAware.setValidationErrors (Some "Message required") st, [])).
Proof.
  intros S C T. rewrite IdentityAwareFacts.step_Submit.
  unfold IdentityAware.sendMessage, IdentityAware.validate.
  rewrite S, C, T. cbn [negb orb]. split; [|split].
  - intros Vm L. rewrite (schema_validate_name_only order _ _ Vm).
    unfold userNameSchema. rewrite validateString_chain. cbv zeta. now rewrite L.
  - intros Vm L. rewrite (schema_validate_name_only order _ _ Vm).
    unfold userNameSchema. rewrite validateString_chain. cbv zeta. now rewrite L.
  - intros Vn L. rewrite (schema_validate_message_only order _ _ Vn).
    unfold messageInputSchema. rewrite validateString_chain. cbv zeta. now rewrite L.
Qed.

Lemma each_invalid_field_has_its_error_witness :
  IdentityAware.step ReverseOrder
    (IdentityAware.mkState true [] "A" "hi" true None false (JS.Num 1))
    IdentityAware.Submit
  = (IdentityAware.mkState true [] "A" "hi" true
       (Some "userName must be at least 2 characters") false (JS.Num 1), []).
Proof.
  exact (proj1 (proj2 (each_invalid_field_has_its_error ReverseOrder
                         (IdentityAware.mkState true [] "A" "hi" true None false (JS.Num 1))
                         eq_refl eq_refl eq_refl))
               eq_refl eq_refl).
Defined.
